(** * BTC price chart: time-series assembly and live merge

    A shallow embedding of [src/components/PriceChart.js]: the paginated
    historical fetch, the construction of the label/price series, the
    previous-close lookup, the per-point styling of the chart and the merge
    of streaming updates, followed by the properties of the specification
    that these functions satisfy (or fail to satisfy). *)

From Stdlib Require Import ZArith QArith List String Ascii Bool Lia.
From Stdlib Require Import DecimalString Sorted.
Import ListNotations.

Local Open Scope string_scope.
Local Open Scope list_scope.
Local Open Scope Z_scope.

(** ** JavaScript values used by the component *)

Module JS.

(** A JavaScript number.  The finite doubles are rationals and the
    comparisons of the component are the rational ones; [NaN], which
    [parseFloat] returns on a malformed string, is kept apart. *)
Inductive number : Type :=
  | NaN
  | Fin (q : Q).

(** The values stored in the price array and in the price state:
    [undefined] (array holes, out-of-range reads, [pop] of an empty array),
    [null] (no data) and numbers. *)
Inductive value : Type :=
  | Undefined
  | Null
  | Num (n : number).

(** [ToBoolean]: [undefined], [null], [NaN] and zero are falsy. *)
Definition toBoolean (v : value) : bool :=
  match v with
  | Undefined | Null => false
  | Num NaN => false
  | Num (Fin q) => negb (Qeq_bool q 0)
  end.

(** [ToNumber]: [null] is zero, [undefined] is [NaN]. *)
Definition toNumber (v : value) : number :=
  match v with
  | Undefined => NaN
  | Null => Fin 0
  | Num n => n
  end.

(** [a > b] on values: both sides go through [ToNumber]; any comparison
    with [NaN] is false. *)
Definition gt (a b : value) : bool :=
  match toNumber a, toNumber b with
  | Fin x, Fin y => negb (Qle_bool x y)
  | _, _ => false
  end.

(** [v !== null]. *)
Definition notNull (v : value) : bool :=
  match v with
  | Null => false
  | _ => true
  end.

(** [n.toString()] for an integer. *)
Definition toString (n : Z) : string :=
  NilZero.string_of_int (Z.to_int n).

(** [fill] repeated and cut to [k] characters. *)
Fixpoint repeat_cut (k : nat) (fill rest : string) : string :=
  match k with
  | O => EmptyString
  | S k' =>
      match rest with
      | String c r => String c (repeat_cut k' fill r)
      | EmptyString =>
          match fill with
          | String c r => String c (repeat_cut k' fill r)
          | EmptyString => EmptyString
          end
      end
  end.

(** [s.padStart(n, fill)]. *)
Definition padStart (s : string) (n : nat) (fill : string) : string :=
  if (n <=? String.length s)%nat then s
  else (repeat_cut (n - String.length s) fill fill ++ s)%string.

(** [labels.indexOf(x)]: the first position of [x], or [-1]. *)
Fixpoint indexOf_from (i : Z) (l : list string) (x : string) : Z :=
  match l with
  | [] => -1
  | y :: l' => if String.eqb y x then i else indexOf_from (i + 1) l' x
  end.

Definition indexOf (l : list string) (x : string) : Z := indexOf_from 0 l x.

(** [arr.findLastIndex(p)]: the last position that satisfies [p], or [-1]. *)
Fixpoint findLastIndex_from {A} (i : Z) (p : A -> bool) (l : list A) : Z :=
  match l with
  | [] => -1
  | x :: l' =>
      let r := findLastIndex_from (i + 1) p l' in
      if 0 <=? r then r else if p x then i else -1
  end.

Definition findLastIndex {A} (p : A -> bool) (l : list A) : Z :=
  findLastIndex_from 0 p l.

(** [arr[i]]: [undefined] outside the array. *)
Definition get (l : list value) (i : Z) : value :=
  if i <? 0 then Undefined else nth (Z.to_nat i) l Undefined.

(** [arr.pop()] read as a value: the last element, [undefined] when empty. *)
Definition pop (l : list value) : value := last l Undefined.

(** The array after [arr[i] = v] for [0 <= i]: a write past the end
    extends the array and leaves holes in between. *)
Fixpoint set_nat (l : list value) (i : nat) (v : value) : list value :=
  match i, l with
  | O, [] => [v]
  | O, _ :: l' => v :: l'
  | S i', [] => Undefined :: set_nat [] i' v
  | S i', x :: l' => x :: set_nat l' i' v
  end.

(** [arr[i] = v]; a negative [i] sets a property and leaves the elements. *)
Definition set (l : list value) (i : Z) (v : value) : list value :=
  if i <? 0 then l else set_nat l (Z.to_nat i) v.

End JS.

Import JS.

(** ** The host: what the component takes from its environment *)

(** [parseFloat] is the built-in of the engine.  [LocalTZA t isUTC] is the
    offset of local time from UTC in milliseconds, as the language
    specification has it: the offset in force at the UTC instant [t] when
    [isUTC] is true, the offset in force at the local time value [t]
    otherwise.  It follows daylight saving. *)
Class Host : Type := {
  parseFloat : string -> number;
  LocalTZA : Z -> bool -> Z
}.

(** ** Dates *)

Module Date.

Definition msPerMinute : Z := 60000.
Definition msPerHour : Z := 3600000.
Definition msPerDay : Z := 86400000.

(** The time values a Date can hold. *)
Definition validTime (t : Z) : Prop :=
  -8640000000000000 <= t <= 8640000000000000.

Section Local.
Context `{Host}.

(** [new Date(t)] is kept as its time value [t]; the accessors read the
    local time.  The Date of a time value beyond [validTime] is invalid in
    the engine and its accessors give [NaN]; the accessors below are meant
    for valid time values. *)
Definition localTime (t : Z) : Z := t + LocalTZA t true.

(** The UTC time value of a local time value. *)
Definition utcOf (local : Z) : Z := local - LocalTZA local false.

Definition getHours (t : Z) : Z := (localTime t / msPerHour) mod 24.
Definition getMinutes (t : Z) : Z := (localTime t / msPerMinute) mod 60.

(** Civil date of a day number (days since 1970-01-01). *)
Definition civil (days : Z) : Z * Z * Z :=
  let z := days + 719468 in
  let era := z / 146097 in
  let doe := z - era * 146097 in
  let yoe := (doe - doe / 1460 + doe / 36524 - doe / 146096) / 365 in
  let doy := doe - (365 * yoe + yoe / 4 - yoe / 100) in
  let mp := (5 * doy + 2) / 153 in
  let d := doy - (153 * mp + 2) / 5 + 1 in
  let m := if mp <? 10 then mp + 3 else mp - 9 in
  let y := yoe + era * 400 + (if m <=? 2 then 1 else 0) in
  (y, m, d).

(** Day number of a civil date. *)
Definition daysFromCivil (y m d : Z) : Z :=
  let y' := if m <=? 2 then y - 1 else y in
  let era := y' / 400 in
  let yoe := y' - era * 400 in
  let mp := if 2 <? m then m - 3 else m + 9 in
  let doy := (153 * mp + 2) / 5 + d - 1 in
  let doe := yoe * 365 + yoe / 4 - yoe / 100 + doy in
  era * 146097 + doe - 719468.

Definition getFullYear (t : Z) : Z :=
  let '(y, _, _) := civil (localTime t / msPerDay) in y.
(** [getMonth] counts from zero. *)
Definition getMonth (t : Z) : Z :=
  let '(_, m, _) := civil (localTime t / msPerDay) in m - 1.
Definition getDate (t : Z) : Z :=
  let '(_, _, d) := civil (localTime t / msPerDay) in d.

(** [d.setHours(h, m, s, ms)] on the date with time value [t]. *)
Definition setHours (t h m s ms : Z) : Z :=
  utcOf ((localTime t / msPerDay) * msPerDay
         + h * msPerHour + m * msPerMinute + s * 1000 + ms).

(** [new Date(y, 0, 1).getTime()]: midnight of 1 January in local time; a
    year from 0 to 99 stands for 1900 + y. *)
Definition yearStartOf (y : Z) : Z :=
  let yr := if (0 <=? y) && (y <=? 99) then 1900 + y else y in
  utcOf (daysFromCivil yr 1 1 * msPerDay).

End Local.
End Date.

Import Date.

(** ** Data of the component *)

(** The display interval: the values [setInterval] is called with. *)
Inductive Interval : Type :=
  | I1m    (* '1m', Today *)
  | I1w    (* '1w' *)
  | I1M    (* '1M' *)
  | I3M    (* '3M' *)
  | IYTD   (* 'YTD' *)
  | I1Y.   (* '1Y' *)

Definition Interval_eqb (a b : Interval) : bool :=
  match a, b with
  | I1m, I1m | I1w, I1w | I1M, I1M | I3M, I3M | IYTD, IYTD | I1Y, I1Y => true
  | _, _ => false
  end.

(** A row of the candle query: index 0 is the open time, index 4 the close
    price as a decimal string. *)
Record Kline : Type := { k0 : Z; k4 : string }.

(** The [k] object of a stream message: [t] the bucket open time, [c] the
    close price string. *)
Record KlineMsg : Type := { t : Z; c : string }.

(** The query string of a candle request. *)
Record KlineRequest : Type := {
  rqInterval : string;
  rqStartTime : option Z;
  rqEndTime : option Z;
  rqLimit : Z
}.

(** What [await fetch(url)] followed by [response.json()] gives: the rows,
    or [None] when the request is rejected or [response.ok] is false. *)
Definition Response : Type := option (list Kline).

Definition GREEN : string := "rgba(0, 128, 0, 1)".
Definition RED : string := "rgba(255, 0, 0, 1)".
Definition GRAY : string := "rgba(128, 128, 128, 1)".
Definition TRANSPARENT : string := "transparent".
Definition WHITE : string := "white".

(** The price dataset ([datasets[0]]).  The scriptable options are
    functions of [context.dataIndex]; the options are absent in the initial
    state of the component. *)
Record Dataset : Type := {
  data : list value;
  spanGaps : option bool;
  pointRadius : option (Z -> Z);
  pointBackgroundColor : option (Z -> string);
  pointBorderColor : option (Z -> string);
  borderColor : option string
}.

(** The dashed reference line ([datasets[1]], present when the previous
    close is known). *)
Record ReferenceLine : Type := {
  refLabel : string;
  refData : list value
}.

Record ChartData : Type := {
  labels : list string;
  prices : Dataset;
  reference : option ReferenceLine
}.

(** [useState] initial value of [chartData]. *)
Definition initialChartData : ChartData :=
  {| labels := [];
     prices := {| data := []; spanGaps := None; pointRadius := None;
                  pointBackgroundColor := None; pointBorderColor := None;
                  borderColor := None |};
     reference := None |}.

(** ** Time window of an interval: [getTimeConfig] *)

Record TimeConfig : Type := {
  startTime : Z;
  endTime : Z;
  apiInterval : string;
  intervalMs : Z
}.

Definition intervalName (i : Interval) : string :=
  match i with
  | I1m => "1m" | I1w => "1w" | I1M => "1M"
  | I3M => "3M" | IYTD => "YTD" | I1Y => "1Y"
  end.

Section TimeWindow.
Context `{Host}.

(** [now] is [Date.now()], also the time value of [new Date()]. *)
Definition getTimeConfig (interval : Interval) (now : Z) : TimeConfig :=
  match interval with
  | I1m =>
      let today := setHours now 0 0 0 0 in
      let todayEnd := setHours today 23 59 59 999 in
      {| startTime := today; endTime := todayEnd;
         apiInterval := intervalName interval; intervalMs := 60000 |}
  | I1w =>
      {| startTime := now - (7 * 24 * 60 * 60 * 1000); endTime := now;
         apiInterval := "1h"; intervalMs := 3600000 |}
  | I1M =>
      {| startTime := now - (30 * 24 * 60 * 60 * 1000); endTime := now;
         apiInterval := "4h"; intervalMs := 14400000 |}
  | I3M =>
      {| startTime := now - (90 * 24 * 60 * 60 * 1000); endTime := now;
         apiInterval := "1d"; intervalMs := 86400000 |}
  | IYTD =>
      let yearStart := yearStartOf (getFullYear now) in
      {| startTime := yearStart; endTime := now;
         apiInterval := "1d"; intervalMs := 86400000 |}
  | I1Y =>
      {| startTime := now - (365 * 24 * 60 * 60 * 1000); endTime := now;
         apiInterval := "1d"; intervalMs := 86400000 |}
  end.

End TimeWindow.

(** ** The paginated historical fetch: the batch loop of [fetchHistoricalData] *)

Definition batchSize : Z := 1000.

(** How a run of the loop ends: normally with the rows collected, by the
    [throw] of a failed page, or not within the steps observed. *)
Inductive Outcome : Type :=
  | Done (allData : list Kline)
  | Thrown
  | Pending.

Section BatchLoop.
(** [fetch] answers a request. *)
Variable fetch : KlineRequest -> Response.
Variable cfg : TimeConfig.

Definition batchRequest (currentStartTime : Z) : KlineRequest :=
  let batchEndTime :=
    Z.min (currentStartTime + batchSize * intervalMs cfg) (endTime cfg) in
  {| rqInterval := apiInterval cfg;
     rqStartTime := Some currentStartTime;
     rqEndTime := Some batchEndTime;
     rqLimit := batchSize |}.

(** [batchData[batchData.length - 1][0]]. *)
Definition lastOpenTime (batchData : list Kline) : Z :=
  k0 (last batchData {| k0 := 0; k4 := "" |}).

(** The [while] loop, at most [fuel] iterations of it: the requests issued,
    in order, and the outcome. *)
Fixpoint fetchBatches (fuel : nat) (allData : list Kline)
    (currentStartTime : Z) : list KlineRequest * Outcome :=
  if currentStartTime <? endTime cfg then
    match fuel with
    | O => ([], Pending)
    | S fuel' =>
        let rq := batchRequest currentStartTime in
        match fetch rq with
        | None => ([rq], Thrown)
        | Some batchData =>
            if (Z.of_nat (List.length batchData) =? 0) then ([rq], Done allData)
            else
              let allData' := allData ++ batchData in
              let next := lastOpenTime batchData + intervalMs cfg in
              let '(rqs, out) := fetchBatches fuel' allData' next in
              (rq :: rqs, out)
        end
    end
  else ([], Done allData).

End BatchLoop.

(** ** Series and styling: the second half of [fetchHistoricalData] *)

Section Series.
Context `{Host}.

Definition pad2 (n : Z) : string := padStart (toString n) 2 "0".

(** The Today branch: the two nested [for] loops, pushing one label and one
    price per minute of the day.  ([targetTime] is computed by the source
    and never read.) *)
Definition todaySeries (data : list Kline) : list string * list value :=
  fold_left (fun acc hour =>
    fold_left (fun '(labels, prices) minute =>
      let timeLabel :=
        (pad2 (Z.of_nat hour) ++ ":" ++ pad2 (Z.of_nat minute))%string in
      let labels := labels ++ [timeLabel] in
      let matchingKline :=
        find (fun kline =>
                (getHours (k0 kline) =? Z.of_nat hour)
                && (getMinutes (k0 kline) =? Z.of_nat minute)) data in
      match matchingKline with
      | Some kline => (labels, prices ++ [Num (parseFloat (k4 kline))])
      | None => (labels, prices ++ [Null])
      end) (seq 0 60) acc) (seq 0 24) ([], []).

(** The label of a candle for the other intervals. *)
Definition klineLabel (interval : Interval) (klineTime : Z) : string :=
  match interval with
  | I1w | I1M =>
      (pad2 (getMonth klineTime + 1) ++ "/" ++ pad2 (getDate klineTime)
       ++ " " ++ pad2 (getHours klineTime) ++ ":00")%string
  | I3M | IYTD | I1Y =>
      (pad2 (getMonth klineTime + 1) ++ "/" ++ pad2 (getDate klineTime))%string
  | I1m => EmptyString
  end.

(** The [forEach] branch: one label and one price per candle. *)
Definition candleSeries (interval : Interval) (data : list Kline)
    : list string * list value :=
  fold_left (fun '(labels, prices) kline =>
    (labels ++ [klineLabel interval (k0 kline)],
     prices ++ [Num (parseFloat (k4 kline))])) data ([], []).

Definition buildSeries (interval : Interval) (data : list Kline)
    : list string * list value :=
  match interval with
  | I1m => todaySeries data
  | _ => candleSeries interval data
  end.

End Series.

Definition referenceLabel (interval : Interval) : string :=
  match interval with
  | I1m => "Yesterday Close"
  | I1w => "Last Week Close"
  | I1M => "Last Month Close"
  | I3M => "3M Ago Close"
  | IYTD => "Last Year Close"
  | I1Y => "1Y Ago Close"
  end.

(** The reference line spread into [datasets]. *)
Definition referenceLine (interval : Interval) (previousClose : value)
    (n : nat) : option ReferenceLine :=
  if notNull previousClose then
    Some {| refLabel := referenceLabel interval;
            refData := repeat previousClose n |}
  else None.

(** Styling on the initial path: the closures capture [prices] and
    [previousClose]. *)
Definition lastNonNull (prices : list value) : Z :=
  findLastIndex notNull prices.

Definition initialPointRadius (prices : list value) (dataIndex : Z) : Z :=
  let isLastNonNull := dataIndex =? lastNonNull prices in
  if isLastNonNull then 6 else 0.

Definition initialPointBackgroundColor (prices : list value)
    (previousClose : value) (dataIndex : Z) : string :=
  let isLastNonNull := dataIndex =? lastNonNull prices in
  if isLastNonNull && notNull (get prices dataIndex) then
    if (0 <? Z.of_nat (List.length prices)) && notNull previousClose then
      if gt (get prices dataIndex) previousClose then GREEN else RED
    else GRAY
  else TRANSPARENT.

Definition initialPointBorderColor (prices : list value) (dataIndex : Z)
    : string :=
  let isLastNonNull := dataIndex =? lastNonNull prices in
  if isLastNonNull && notNull (get prices dataIndex) then WHITE
  else TRANSPARENT.

Definition initialBorderColor (prices : list value) (previousClose : value)
    : string :=
  let lastValidPrice := pop (filter notNull prices) in
  if toBoolean lastValidPrice && notNull previousClose then
    if gt lastValidPrice previousClose then GREEN else RED
  else GRAY.

Definition initialDataset (prices : list value) (previousClose : value)
    : Dataset :=
  {| data := prices;
     spanGaps := Some false;
     pointRadius := Some (initialPointRadius prices);
     pointBackgroundColor :=
       Some (initialPointBackgroundColor prices previousClose);
     pointBorderColor := Some (initialPointBorderColor prices);
     borderColor := Some (initialBorderColor prices previousClose) |}.

(** The argument of [setChartData] at the end of [fetchHistoricalData]. *)
Definition historicalChart `{Host} (interval : Interval)
    (previousClose : value) (data : list Kline) : ChartData :=
  let '(labels, prices) := buildSeries interval data in
  {| labels := labels;
     prices := initialDataset prices previousClose;
     reference := referenceLine interval previousClose (List.length labels) |}.

(** ** The live merge: [ws.onmessage] *)

(** Styling on the live path: the closures capture [timeIndex],
    [closePrice] and the [previousClose] of the render that opened the
    socket. *)
Definition livePointRadius (timeIndex dataIndex : Z) : Z :=
  if dataIndex =? timeIndex then 6 else 0.

Definition livePointBackgroundColor (timeIndex : Z)
    (closePrice previousClose : value) (dataIndex : Z) : string :=
  if dataIndex =? timeIndex then
    if gt closePrice previousClose then GREEN else RED
  else TRANSPARENT.

Definition livePointBorderColor (timeIndex dataIndex : Z) : string :=
  if dataIndex =? timeIndex then WHITE else TRANSPARENT.

Definition liveBorderColor (closePrice previousClose : value) : string :=
  if notNull previousClose then
    if gt closePrice previousClose then GREEN else RED
  else GRAY.

(** The updater passed to [setChartData]. *)
Definition mergeUpdate (interval : Interval) (previousClose : value)
    (closePrice : value) (timestamp : string) (prev : ChartData)
    : ChartData :=
  let timeIndex := indexOf (labels prev) timestamp in
  if timeIndex =? -1 then prev
  else
    let newData := set (data (prices prev)) timeIndex closePrice in
    {| labels := labels prev;
       prices :=
         {| data := newData;
            spanGaps := spanGaps (prices prev);
            pointRadius := Some (livePointRadius timeIndex);
            pointBackgroundColor :=
              Some (livePointBackgroundColor timeIndex closePrice
                      previousClose);
            pointBorderColor := Some (livePointBorderColor timeIndex);
            borderColor := Some (liveBorderColor closePrice previousClose) |};
       reference :=
         referenceLine interval previousClose (List.length (labels prev)) |}.

(** [`${hours}:${minutes}`] of the bucket open time. *)
Definition timestampOf `{Host} (klineDataTime : Z) : string :=
  (pad2 (getHours klineDataTime) ++ ":" ++ pad2 (getMinutes klineDataTime))%string.

(** ** The previous close: [fetchPreviousClose] *)

Section PreviousClose.
Context `{Host}.

Definition previousCloseRequest (interval : Interval) (now : Z)
    : KlineRequest :=
  let apiInterval :=
    match interval with
    | I1m => "1d" | I1w => "1h" | I1M => "4h"
    | I3M => "1d" | IYTD => "1d" | I1Y => "1d"
    end in
  let limit := match interval with I1m => 2 | _ => 1000 end in
  let ranged (startTime : Z) :=
    {| rqInterval := apiInterval; rqStartTime := Some startTime;
       rqEndTime := Some now; rqLimit := limit |} in
  match interval with
  | I1w => ranged (now - (7 * 24 * 60 * 60 * 1000))
  | I1M => ranged (now - (30 * 24 * 60 * 60 * 1000))
  | I3M => ranged (now - (90 * 24 * 60 * 60 * 1000))
  | IYTD => ranged (yearStartOf (getFullYear now))
  | I1Y => ranged (now - (365 * 24 * 60 * 60 * 1000))
  | I1m =>
      {| rqInterval := apiInterval; rqStartTime := None;
         rqEndTime := None; rqLimit := limit |}
  end.

(** [data[i]]: a row, or [undefined]. *)
Definition rowAt (data : list Kline) (i : Z) : option Kline :=
  if i <? 0 then None else nth_error data (Z.to_nat i).

(** [row && row[4] ? parseFloat(row[4]) : null]: the empty string is
    falsy. *)
Definition closeOrNull (row : option Kline) : value :=
  match row with
  | Some r => if String.eqb (k4 r) "" then Null else Num (parseFloat (k4 r))
  | None => Null
  end.

Definition selectPreviousClose (interval : Interval) (data : list Kline)
    : value :=
  match interval with
  | I1m => closeOrNull (rowAt data (Z.of_nat (List.length data) - 2))
  | _ => closeOrNull (rowAt data 0)
  end.

End PreviousClose.

(** ** The whole of [fetchHistoricalData] *)

(** What a run of [fetchHistoricalData] does to the chart: one call of
    [setChartData], nothing but a log line in the [catch] branch, or
    nothing yet. *)
Inductive Effect : Type :=
  | SetChartData (chart : ChartData)
  | Logged
  | Awaiting.

Section Historical.
Context `{Host}.

Definition historicalRun (interval : Interval) (now : Z)
    (fetch : KlineRequest -> Response) (fuel : nat)
    : list KlineRequest * Outcome :=
  let cfg := getTimeConfig interval now in
  fetchBatches fetch cfg fuel [] (startTime cfg).

Definition fetchHistoricalData (interval : Interval) (previousClose : value)
    (now : Z) (fetch : KlineRequest -> Response) (fuel : nat) : Effect :=
  match snd (historicalRun interval now fetch fuel) with
  | Done data => SetChartData (historicalChart interval previousClose data)
  | Thrown => Logged
  | Pending => Awaiting
  end.

End Historical.

(** ** The component: state, effects and events *)

(** The asynchronous functions started by an effect and not yet settled,
    with the variables their closure captured. *)
Inductive Task : Type :=
  | PreviousCloseFetch (interval : Interval)
  | HistoricalFetch (interval : Interval) (previousClose : value).

Record State : Type := {
  interval : Interval;
  currentPrice : value;
  chartData : ChartData;
  yesterdayClose : value;
  previousClose : value;
  (** the open socket: the [interval] and [previousClose] its [onmessage]
      captured *)
  ws : option (Interval * value);
  inflight : list Task
}.

(** What arrives on the event loop. *)
Inductive Event : Type :=
  | Select (i : Interval)
  | PreviousCloseSettles (n : nat) (response : Response)
  | HistoricalSettles (n : nat) (now : Z)
      (fetch : KlineRequest -> Response) (fuel : nat)
  | StreamMessage (msg : KlineMsg).

(** [Object.is] on the values of the price state. *)
Definition sameValue (a b : value) : bool :=
  match a, b with
  | Undefined, Undefined | Null, Null => true
  | Num NaN, Num NaN => true
  | Num (Fin x), Num (Fin y) => Qeq_bool x y
  | _, _ => false
  end.

Fixpoint removeNth {A} (n : nat) (l : list A) : list A :=
  match n, l with
  | _, [] => []
  | O, _ :: l' => l'
  | S n', x :: l' => x :: removeNth n' l'
  end.

(** The effects that run after a render, by their dependency arrays:
    [fetchPreviousClose] on [interval]; [fetchHistoricalData] and the
    socket on [interval, previousClose]. *)
Definition runEffects (old new : State) : State :=
  let intervalChanged := negb (Interval_eqb (interval old) (interval new)) in
  let previousCloseChanged :=
    negb (sameValue (previousClose old) (previousClose new)) in
  let started1 :=
    if intervalChanged then [PreviousCloseFetch (interval new)] else [] in
  let rerun := intervalChanged || previousCloseChanged in
  let started2 :=
    if rerun then [HistoricalFetch (interval new) (previousClose new)]
    else [] in
  {| interval := interval new;
     currentPrice := currentPrice new;
     chartData := chartData new;
     yesterdayClose := yesterdayClose new;
     previousClose := previousClose new;
     ws := if rerun then
             match interval new with
             | I1m => Some (interval new, previousClose new)
             | _ => None
             end
           else ws new;
     inflight := inflight new ++ started1 ++ started2 |}.

(** The component after its first render and effects. *)
Definition mount : State :=
  {| interval := I1m;
     currentPrice := Null;
     chartData := initialChartData;
     yesterdayClose := Null;
     previousClose := Null;
     ws := Some (I1m, Null);
     inflight := [PreviousCloseFetch I1m; HistoricalFetch I1m Null] |}.

Section Component.
Context `{Host}.

(** [ws.onmessage]. *)
Definition onmessage (captured : Interval * value) (msg : KlineMsg)
    (st : State) : State :=
  let closePrice := Num (parseFloat (c msg)) in
  let timestamp := timestampOf (t msg) in
  {| interval := interval st;
     currentPrice := closePrice;
     chartData :=
       mergeUpdate (fst captured) (snd captured) closePrice timestamp
         (chartData st);
     yesterdayClose := yesterdayClose st;
     previousClose := previousClose st;
     ws := ws st;
     inflight := inflight st |}.

(** The rest of [fetchPreviousClose] once the response is there. *)
Definition onPreviousClose (captured : Interval) (response : Response)
    (st : State) : State :=
  match response with
  | None => st
  | Some data =>
      let previousClosePrice := selectPreviousClose captured data in
      if toBoolean previousClosePrice then
        runEffects st
          {| interval := interval st;
             currentPrice := currentPrice st;
             chartData := chartData st;
             yesterdayClose :=
               match captured with
               | I1m => previousClosePrice
               | _ => yesterdayClose st
               end;
             previousClose := previousClosePrice;
             ws := ws st;
             inflight := inflight st |}
      else st
  end.

Definition withChartData (chart : ChartData) (st : State) : State :=
  {| interval := interval st;
     currentPrice := currentPrice st;
     chartData := chart;
     yesterdayClose := yesterdayClose st;
     previousClose := previousClose st;
     ws := ws st;
     inflight := inflight st |}.

Definition withoutTask (n : nat) (st : State) : State :=
  {| interval := interval st;
     currentPrice := currentPrice st;
     chartData := chartData st;
     yesterdayClose := yesterdayClose st;
     previousClose := previousClose st;
     ws := ws st;
     inflight := removeNth n (inflight st) |}.

(** One event; [None] when the event cannot happen in this state. *)
Definition step (st : State) (e : Event) : option State :=
  match e with
  | Select i =>
      Some (runEffects st
              {| interval := i;
                 currentPrice := currentPrice st;
                 chartData := chartData st;
                 yesterdayClose := yesterdayClose st;
                 previousClose := previousClose st;
                 ws := ws st;
                 inflight := inflight st |})
  | PreviousCloseSettles n response =>
      match nth_error (inflight st) n with
      | Some (PreviousCloseFetch captured) =>
          Some (onPreviousClose captured response (withoutTask n st))
      | _ => None
      end
  | HistoricalSettles n now fetch fuel =>
      match nth_error (inflight st) n with
      | Some (HistoricalFetch captured previousClose) =>
          match fetchHistoricalData captured previousClose now fetch fuel with
          | SetChartData chart => Some (withChartData chart (withoutTask n st))
          | Logged => Some (withoutTask n st)
          | Awaiting => None
          end
      | _ => None
      end
  | StreamMessage msg =>
      match ws st with
      | Some captured => Some (onmessage captured msg st)
      | None => None
      end
  end.

Fixpoint run (st : State) (es : list Event) : option State :=
  match es with
  | [] => Some st
  | e :: es' =>
      match step st e with
      | Some st' => run st' es'
      | None => None
      end
  end.

End Component.

(** ** Environments used in the statements *)

(** The candles of the buckets [first], ..., [first + n - 1] of an exchange
    whose buckets open at the multiples of [ms]; [quote] gives the close
    string of a bucket. *)
Definition buckets (ms : Z) (quote : Z -> string) (first : Z) (n : nat)
    : list Kline :=
  map (fun j =>
         let openTime := (first + Z.of_nat j) * ms in
         {| k0 := openTime; k4 := quote openTime |}) (seq 0 n).

(** An exchange that holds a candle for every bucket and answers a request
    with the candles whose open time lies between [startTime] and
    [endTime], oldest first, at most [limit] of them. *)
Definition exchange (ms : Z) (quote : Z -> string) (rq : KlineRequest)
    : Response :=
  match rqStartTime rq, rqEndTime rq with
  | Some a, Some b =>
      let first := - ((- a) / ms) in
      let last := b / ms in
      let n := Z.min (rqLimit rq) (last - first + 1) in
      Some (buckets ms quote first (Z.to_nat n))
  | _, _ => Some []
  end.

Definition digitOf (ch : ascii) : option Z :=
  let n := Z.of_nat (nat_of_ascii ch) in
  if (48 <=? n) && (n <=? 57) then Some (n - 48) else None.

(** A reader of plain decimal strings (digits, at most one point): what
    [parseFloat] returns on the close strings of the exchange. *)
Fixpoint readDecimal (s : string) (num : Z) (den : positive)
    (inFraction seen : bool) : number :=
  match s with
  | EmptyString => if seen then Fin (num # den) else NaN
  | String ch r =>
      match digitOf ch with
      | Some d =>
          readDecimal r (10 * num + d)
            (if inFraction then (10 * den)%positive else den) inFraction true
      | None =>
          if Ascii.eqb ch "."%char && negb inFraction
          then readDecimal r num den true seen
          else if seen then Fin (num # den) else NaN
      end
  end.

(** A host in UTC. *)
Definition utcHost : Host :=
  {| parseFloat := fun s => readDecimal s 0 1 false false;
     LocalTZA := fun _ _ => 0 |}.

(** A host in New York in 2023: UTC-4 from 12 March 07:00 UTC to
    5 November 06:00 UTC, UTC-5 otherwise. *)
Definition newYorkHost : Host :=
  {| parseFloat := fun s => readDecimal s 0 1 false false;
     LocalTZA := fun t isUTC =>
       let shift := if isUTC then 0 else -14400000 in
       if (1678604400000 + shift <=? t) && (t <? 1699164000000 + shift)
       then -14400000 else -18000000 |}.

(** The label of minute [i] of the day, written digit by digit. *)
Definition digit (n : nat) : ascii := ascii_of_nat (48 + n).

Definition minuteLabel (i : nat) : string :=
  let h := (i / 60)%nat in
  let m := (i mod 60)%nat in
  String (digit (h / 10)) (String (digit (h mod 10)) (String ":"%char
    (String (digit (m / 10)) (String (digit (m mod 10)) EmptyString)))).

(** The 1440 labels ["00:00"], ..., ["23:59"]. *)
Definition minuteGrid : list string := map minuteLabel (seq 0 1440).

(** ** The rest of the component: axis ticks, label plugin, headline *)

(** String methods used by the chart options. *)
Module Str.

(** [s.startsWith(p)]. *)
Definition startsWith (s p : string) : bool := String.prefix p s.

(** [s.endsWith(p)]. *)
Definition endsWith (s p : string) : bool :=
  let n := String.length s in
  let m := String.length p in
  if (m <=? n)%nat then String.eqb (String.substring (n - m) m s) p
  else false.

(** [s.includes(p)]. *)
Fixpoint includes (s p : string) : bool :=
  String.prefix p s
  || match s with
     | EmptyString => false
     | String _ r => includes r p
     end.

(** A string is truthy when it is not empty. *)
Definition truthy (s : string) : bool := negb (String.eqb s "").

(** [s.split(sep)[0]]: the part of [s] before the first [sep]. *)
Fixpoint beforeFirst (sep : ascii) (s : string) : string :=
  match s with
  | EmptyString => EmptyString
  | String ch r =>
      if Ascii.eqb ch sep then EmptyString else String ch (beforeFirst sep r)
  end.

End Str.

(** [options.scales.x.ticks.callback]: the text of the tick at [index],
    whose label is [label]. *)
Definition tickCallback (interval : Interval) (label : string) (index : Z)
    : string :=
  match interval with
  | I1m =>
      if Str.truthy label
         && (Str.endsWith label ":00"
             && (Str.startsWith label "00:" || Str.startsWith label "04:"
                 || Str.startsWith label "08:" || Str.startsWith label "12:"
                 || Str.startsWith label "16:" || Str.startsWith label "20:"))
      then label else EmptyString
  | I1w =>
      if Str.truthy label && Str.includes label " 00:00" then label
      else EmptyString
  | I1M => if Z.rem index 36 =? 0 then label else EmptyString
  | I3M => if Z.rem index 10 =? 0 then label else EmptyString
  | IYTD => if Z.rem index 15 =? 0 then label else EmptyString
  | I1Y => if Z.rem index 20 =? 0 then label else EmptyString
  end.

(** [options.scales.x.ticks.maxTicksLimit]. *)
Definition maxTicksLimit (interval : Interval) : Z :=
  match interval with
  | I1m => 8 | I1w => 3 | I1M => 5 | I3M => 10 | IYTD => 12 | I1Y => 18
  end.

(** The callback applied along the axis: one text per label. *)
Definition tickTexts (interval : Interval) (labels : list string)
    : list string :=
  map (fun '(index, label) => tickCallback interval label (Z.of_nat index))
    (combine (seq 0 (List.length labels)) labels).

(** [chart.data.datasets] as the plugins see it: the [label] and the [data]
    of each dataset. *)
Definition datasets (chart : ChartData) : list (option string * list value) :=
  (None, data (prices chart))
  :: match reference chart with
     | Some line => [(Some (refLabel line), refData line)]
     | None => []
     end.

(** [dataset.label && dataset.label.includes('Close')]. *)
Definition isCloseDataset (dataset : option string * list value) : bool :=
  match fst dataset with
  | Some label => Str.truthy label && Str.includes label "Close"
  | None => false
  end.

(** The first lines of [previousCloseLabelPlugin.afterDraw]: the price the
    label is drawn at, [None] when nothing is drawn. *)
Definition previousCloseLabelPrice (chart : ChartData) : option value :=
  match find isCloseDataset (datasets chart) with
  | Some previousCloseDataset =>
      if 0 <? Z.of_nat (List.length (snd previousCloseDataset))
      then Some (get (snd previousCloseDataset) 0)
      else None
  | None => None
  end.

(** [options.plugins.tooltip.filter]. *)
Definition tooltipFilter (dataset : option string * list value) : bool :=
  match fst dataset with
  | Some label => negb (Str.truthy label) || negb (Str.includes label "Close")
  | None => true
  end.

Definition HEADLINE_UP : string := "#4caf50".
Definition HEADLINE_DOWN : string := "#f44336".
Definition HEADLINE_PLAIN : string := "#333".

(** The colour of the headline price. *)
Definition headlineColor (currentPrice previousClose : value) : string :=
  if toBoolean currentPrice && toBoolean previousClose then
    if gt currentPrice previousClose then HEADLINE_UP else HEADLINE_DOWN
  else HEADLINE_PLAIN.

(** ** The ticker component: [PriceDashboard.js] *)

Module Dashboard.

(** The [data] object of a ticker message: [c] and [P]. *)
Record Ticker : Type := { tickerC : string; tickerP : string }.

(** A parsed message: [stream] and [data], each possibly missing. *)
Record Message : Type := {
  stream : option string;
  payload : option Ticker
}.

(** A value of the [prices] object: [price] and [change]; both are missing
    in the entry the state starts with. *)
Record Entry : Type := { price : option string; change : option string }.

(** The [prices] object, read through its properties. *)
Definition Prices : Type := string -> option Entry.

(** [useState({ btcusdt: {} })]. *)
Definition initialPrices : Prices :=
  fun key =>
    if String.eqb key "btcusdt"
    then Some {| price := None; change := None |}
    else None.

(** [{ ...prev, [key]: entry }]. *)
Definition assign (prev : Prices) (key : string) (entry : Entry) : Prices :=
  fun k => if String.eqb k key then Some entry else prev k.

(** [ws.onmessage]. *)
Definition onmessage (msg : Message) (prev : Prices) : Prices :=
  match stream msg, payload msg with
  | Some s, Some d =>
      if Str.truthy s then
        assign prev (Str.beforeFirst "@"%char s)
          {| price := Some (tickerC d); change := Some (tickerP d) |}
      else prev
  | _, _ => prev
  end.

End Dashboard.

(** ** Pages of a fetch *)

(** The rows of a response; a refused request has none. *)
Definition responseRows (r : Response) : list Kline :=
  match r with
  | Some rows => rows
  | None => []
  end.

Fixpoint ascending (l : list Z) : bool :=
  match l with
  | x :: (y :: _) as rest => (x <? y) && ascending rest
  | _ => true
  end.

(** A page is in order: its open times ascend, and none lies before the
    [startTime] asked for. *)
Definition pageInOrder (rq : KlineRequest) (r : Response) : bool :=
  match rqStartTime rq with
  | Some a =>
      ascending (map k0 (responseRows r))
      && forallb (fun k => a <=? k0 k) (responseRows r)
  | None => false
  end.

(** ** Vocabulary of the statements *)

Section Slots.
Context `{Host}.

(** The candle opens in minute [i] of the local day. *)
Definition atMinute (kline : Kline) (i : nat) : Prop :=
  getHours (k0 kline) = Z.of_nat (i / 60)
  /\ getMinutes (k0 kline) = Z.of_nat (i mod 60).

(** The price a slot must hold: the close of the first candle of [data]
    that opens in that minute, [null] when there is none. *)
Inductive SlotPrice (data : list Kline) (i : nat) : value -> Prop :=
  | slot_close pre kline post :
      data = pre ++ kline :: post ->
      atMinute kline i ->
      Forall (fun k => ~ atMinute k i) pre ->
      SlotPrice data i (Num (parseFloat (k4 kline)))
  | slot_absent :
      Forall (fun k => ~ atMinute k i) data ->
      SlotPrice data i Null.

Definition matchesSlot (hour minute : nat) (kline : Kline) : bool :=
  (getHours (k0 kline) =? Z.of_nat hour)
  && (getMinutes (k0 kline) =? Z.of_nat minute).

Definition slotOf (data : list Kline) (hour minute : nat) : value :=
  match find (matchesSlot hour minute) data with
  | Some kline => Num (parseFloat (k4 kline))
  | None => Null
  end.

(** The minute of the local day a candle opens in. *)
Definition minuteOfDay (kline : Kline) : Z :=
  60 * getHours (k0 kline) + getMinutes (k0 kline).

End Slots.

(** The marker colour and radius the chart gives to an index. *)
Definition markerColorAt (chart : ChartData) (dataIndex : Z) : option string :=
  option_map (fun f => f dataIndex) (pointBackgroundColor (prices chart)).

Definition markerRadiusAt (chart : ChartData) (dataIndex : Z) : option Z :=
  option_map (fun f => f dataIndex) (pointRadius (prices chart)).

Definition nullOrTruthy (v : value) : Prop := v = Null \/ toBoolean v = true.

(** Every previous close the component holds, in its state, in the closure
    of the open socket and in the closures of the historical fetches in
    flight, is [null] or truthy. *)
Definition baselinesOk (st : State) : Prop :=
  nullOrTruthy (previousClose st)
  /\ (forall i v, ws st = Some (i, v) -> nullOrTruthy v)
  /\ (forall i v, In (HistoricalFetch i v) (inflight st) -> nullOrTruthy v).

(** As many prices as labels, and a reference line, if any, of the same
    length. *)
Definition aligned (chart : ChartData) : Prop :=
  List.length (data (prices chart)) = List.length (labels chart)
  /\ (forall line,
        reference chart = Some line ->
        List.length (refData line) = List.length (labels chart)).

(** The socket is open exactly while Today is selected, and its handler
    captured Today and the previous close of the state. *)
Definition socketTracksState (st : State) : Prop :=
  match ws st with
  | Some (captured, capturedClose) =>
      interval st = I1m /\ captured = I1m
      /\ sameValue capturedClose (previousClose st) = true
  | None => interval st <> I1m
  end.

Definition stateInvariant (st : State) : Prop :=
  aligned (chartData st) /\ socketTracksState st.

(** The offset in force at [now] is in force over the whole local day of
    [now]: at its first and its last millisecond, read as local time values
    and as the instants they stand for. *)
Definition steadyDay `{Host} (now : Z) : Prop :=
  let offset := LocalTZA now true in
  let first := localTime now / msPerDay * msPerDay in
  let last := first + 86399999 in
  LocalTZA first false = offset
  /\ LocalTZA (first - offset) true = offset
  /\ LocalTZA last false = offset
  /\ LocalTZA (last - offset) true = offset.

(** ** The calendar, era by era *)

(** The civil date inside a 400-year era: the year counted from the start
    of the era, the month and the day of day [doe] of the era. *)
Definition civilInEra (doe : Z) : Z * Z * Z :=
  let yoe := (doe - doe / 1460 + doe / 36524 - doe / 146096) / 365 in
  let doy := doe - (365 * yoe + yoe / 4 - yoe / 100) in
  let mp := (5 * doy + 2) / 153 in
  let d := doy - (153 * mp + 2) / 5 + 1 in
  let m := if mp <? 10 then mp + 3 else mp - 9 in
  (yoe + (if m <=? 2 then 1 else 0), m, d).

(** The day of the era on which year [Y] of the era starts. *)
Definition yearStartInEra (Y : Z) : Z :=
  let e := (Y - 1) / 400 in
  let yoe := Y - 1 - e * 400 in
  e * 146097 + (yoe * 365 + yoe / 4 - yoe / 100 + 306).

Fixpoint allFrom (check : Z -> bool) (n : nat) (z : Z) : bool :=
  match n with
  | O => true
  | S n' => if check z then allFrom check n' (z + 1) else false
  end.

(** Day [doe] of the era lies in the year it is dated in, and its month
    and day are those of a calendar. *)
Definition dayInItsYear (doe : Z) : bool :=
  let '(Y, m, d) := civilInEra doe in
  (yearStartInEra Y <=? doe) && (doe <? yearStartInEra Y + 366)
  && ((1 <=? m) && (m <=? 12) && (1 <=? d) && (d <=? 31)).

(** The label of the week chart for month [mo], day [d] and hour [h]. *)
Definition weekLabel (mo d h : Z) : string :=
  (pad2 mo ++ "/" ++ pad2 d ++ " " ++ pad2 h ++ ":00")%string.

(** On every week label the tick test holds exactly at hour zero. *)
Definition weekTickCheck : bool :=
  forallb (fun mo =>
    forallb (fun d =>
      forallb (fun h =>
        Bool.eqb
          (Str.truthy (weekLabel (Z.of_nat mo) (Z.of_nat d) (Z.of_nat h))
           && Str.includes (weekLabel (Z.of_nat mo) (Z.of_nat d) (Z.of_nat h))
                " 00:00")
          (Z.of_nat h =? 0))
        (seq 0 24)) (seq 1 31)) (seq 1 12).

(** The day on which year [Y] of the era starts is dated 1 January of that
    year. *)
Definition yearStartIsJanuaryFirst (Y : Z) : bool :=
  let s := yearStartInEra Y in
  let e := s / 146097 in
  let '(Y', m, d) := civilInEra (s - e * 146097) in
  (Y' + e * 400 =? Y) && (m =? 1) && (d =? 1).

(** ** A scenario: the page opened at 22:15:30 UTC on 2023-11-14 *)

(** Three rows of today: 22:14, 22:15 and a second row for 22:15. *)
Definition sampleCandles : list Kline :=
  [ {| k0 := 1700000040000; k4 := "36950.10" |};
    {| k0 := 1700000100000; k4 := "36951.25" |};
    {| k0 := 1700000100000; k4 := "1.00" |} ].

Definition now0 : Z := 1700000130000.

(** The exchange has the three rows of [sampleCandles] for today. *)
Definition sampleServer (rq : KlineRequest) : Response :=
  match rqStartTime rq with
  | Some a => if a <=? 1700000040000 then Some sampleCandles else Some []
  | None => Some []
  end.

(** The stream update of the bucket 22:15. *)
Definition sampleMessage : KlineMsg :=
  {| t := 1700000100000; c := "36952.00" |}.

(** The first stream update after midnight, bucket 00:00 of the next day. *)
Definition midnightMessage : KlineMsg :=
  {| t := 1700006400000; c := "36960.00" |}.

(** The first page of today is answered, the second is refused. *)
Definition flakyServer (rq : KlineRequest) : Response :=
  match rqStartTime rq with
  | Some a => if a <=? 1700000040000 then Some sampleCandles else None
  | None => None
  end.


(** What the daily and the hourly query return. *)
Definition dailyRows : list Kline :=
  [ {| k0 := 1699833600000; k4 := "35600.00" |};
    {| k0 := 1699920000000; k4 := "36950.10" |} ].

Definition hourlyRows : list Kline :=
  [ {| k0 := 1699394400000; k4 := "35210.50" |};
    {| k0 := 1699398000000; k4 := "35300.00" |};
    {| k0 := 1699401600000; k4 := "35280.75" |} ].

(** A chart of two slots with the first one filled. *)
Definition twoSlotChart : ChartData :=
  {| labels := ["00:00"; "00:01"];
     prices := initialDataset [Num (Fin 100); Null] (Num (Fin 100));
     reference := referenceLine I1m (Num (Fin 100)) 2 |}.

(** A window that holds the 2500 one-minute buckets from 2023-11-14 00:00. *)
Definition wideWindow : TimeConfig :=
  {| startTime := 1699920000000; endTime := 1700069999999;
     apiInterval := "1m"; intervalMs := 60000 |}.

(** The state after the history of today loaded and one update merged. *)
Definition loadedState : State :=
  match
    run (H := utcHost) mount
      [HistoricalSettles 1 now0 sampleServer 5; StreamMessage sampleMessage]
  with
  | Some st => st
  | None => mount
  end.

(** * Properties *)

(** ** Lists built by pushing *)

Lemma fold_push2_map {A B C} (f : C -> A) (g : C -> B) (l : list C)
    (init : list A * list B) :
  fold_left (fun '(xs, ys) x => (xs ++ [f x], ys ++ [g x])) l init
  = (fst init ++ map f l, snd init ++ map g l).
Proof.
  revert init; induction l as [|x l IH]; intros [xs ys]; simpl.
  - now rewrite !app_nil_r.
  - rewrite IH; simpl. now rewrite <- !app_assoc.
Qed.

Lemma fold_nested_flat_map {A B C D} (f : C -> D -> A) (g : C -> D -> B)
    (outer : list C) (inner : list D) (init : list A * list B) :
  fold_left (fun acc x =>
    fold_left (fun '(xs, ys) y => (xs ++ [f x y], ys ++ [g x y])) inner acc)
    outer init
  = (fst init ++ flat_map (fun x => map (f x) inner) outer,
     snd init ++ flat_map (fun x => map (g x) inner) outer).
Proof.
  revert init; induction outer as [|x outer IH]; intros [xs ys]; simpl.
  - now rewrite !app_nil_r.
  - rewrite fold_push2_map, IH; simpl. now rewrite <- !app_assoc.
Qed.

Lemma day_flat_map {A} (F : nat -> nat -> A) :
  flat_map (fun h => map (F h) (seq 0 60)) (seq 0 24)
  = map (fun i => F (i / 60)%nat (i mod 60)%nat) (seq 0 1440).
Proof. vm_compute. reflexivity. Qed.

Lemma fold_left_pointwise {A B} (f g : A -> B -> A) (l : list B) (init : A) :
  (forall a b, f a b = g a b) -> fold_left f l init = fold_left g l init.
Proof.
  intros Hfg. revert init; induction l as [|x l IH]; intros init; simpl.
  - reflexivity.
  - now rewrite Hfg, IH.
Qed.

Lemma day_labels :
  map (fun i => (pad2 (Z.of_nat (i / 60)) ++ ":"
                 ++ pad2 (Z.of_nat (i mod 60)))%string) (seq 0 1440)
  = minuteGrid.
Proof. vm_compute. reflexivity. Qed.

Lemma find_first {A} (p : A -> bool) (l : list A) (x : A) :
  find p l = Some x ->
  exists pre post,
    l = pre ++ x :: post /\ p x = true /\ Forall (fun y => p y = false) pre.
Proof.
  induction l as [|y l IH]; simpl; [discriminate|].
  destruct (p y) eqn:Hy.
  - intros [= ->]. exists [], l. repeat split; auto.
  - intros Hf. destruct (IH Hf) as (pre & post & -> & Hx & Hpre).
    exists (y :: pre), post. repeat split; auto.
Qed.

Lemma find_none_all {A} (p : A -> bool) (l : list A) :
  find p l = None -> Forall (fun y => p y = false) l.
Proof.
  induction l as [|y l IH]; simpl; [constructor|].
  destruct (p y) eqn:Hy; [discriminate|]. auto.
Qed.

(** ** The Today grid *)

Section TodayGrid.
Context `{Host}.

Lemma matchesSlot_true (i : nat) (kline : Kline) :
  matchesSlot (i / 60) (i mod 60) kline = true <-> atMinute kline i.
Proof.
  unfold matchesSlot, atMinute.
  rewrite andb_true_iff, !Z.eqb_eq. tauto.
Qed.

Lemma matchesSlot_false (i : nat) (kline : Kline) :
  matchesSlot (i / 60) (i mod 60) kline = false -> ~ atMinute kline i.
Proof.
  intros Hf Hat. apply matchesSlot_true in Hat. congruence.
Qed.

Lemma slotOf_spec (data : list Kline) (i : nat) :
  SlotPrice data i (slotOf data (i / 60) (i mod 60)).
Proof.
  unfold slotOf.
  destruct (find (matchesSlot (i / 60) (i mod 60)) data) as [kline|] eqn:Hf.
  - destruct (find_first _ _ _ Hf) as (pre & post & Hd & Hk & Hpre).
    apply slot_close with (pre := pre) (post := post); auto.
    + now apply matchesSlot_true.
    + eapply Forall_impl; [|exact Hpre].
      intros k Hk'. now apply matchesSlot_false.
  - apply slot_absent.
    eapply Forall_impl; [|exact (find_none_all _ _ Hf)].
    intros k Hk'. now apply matchesSlot_false.
Qed.

Lemma todaySeries_maps (data : list Kline) :
  todaySeries data
  = (map (fun i => (pad2 (Z.of_nat (i / 60)) ++ ":"
                    ++ pad2 (Z.of_nat (i mod 60)))%string) (seq 0 1440),
     map (fun i => slotOf data (i / 60) (i mod 60)) (seq 0 1440)).
Proof.
  unfold todaySeries.
  transitivity
    (fold_left (fun acc hour =>
       fold_left (fun '(xs, ys) minute =>
         (xs ++ [(pad2 (Z.of_nat hour) ++ ":" ++ pad2 (Z.of_nat minute))%string],
          ys ++ [slotOf data hour minute])) (seq 0 60) acc)
       (seq 0 24) (@nil string, @nil value)).
  - apply fold_left_pointwise; intros acc hour.
    apply fold_left_pointwise; intros [xs ys] minute.
    unfold slotOf, matchesSlot.
    destruct (find _ data); reflexivity.
  - rewrite fold_nested_flat_map. cbn [fst snd app]. apply f_equal2.
    + exact (day_flat_map
               (fun hour minute =>
                  (pad2 (Z.of_nat hour) ++ ":" ++ pad2 (Z.of_nat minute))%string)).
    + exact (day_flat_map (slotOf data)).
Qed.

Lemma todayLabels_grid (data : list Kline) :
  fst (todaySeries data) = minuteGrid.
Proof.
  rewrite todaySeries_maps. cbn [fst]. exact day_labels.
Qed.

End TodayGrid.

(** Labels and prices have the same length for every interval. *)
Lemma buildSeries_lengths `{Host} (interval : Interval) (data : list Kline) :
  List.length (fst (buildSeries interval data))
  = List.length (snd (buildSeries interval data)).
Proof.
  assert (Hc : forall i,
             List.length (fst (candleSeries i data))
             = List.length (snd (candleSeries i data))).
  { intros i. unfold candleSeries.
    rewrite (fold_push2_map (fun kline => klineLabel i (k0 kline))
               (fun kline => Num (parseFloat (k4 kline)))).
    cbn [fst snd app]. now rewrite !length_map. }
  destruct interval; cbn [buildSeries]; try apply Hc.
  rewrite todaySeries_maps. cbn [fst snd]. now rewrite !length_map.
Qed.

(** C1. For the Today interval and every sequence of candles, the series
    built by [fetchHistoricalData] has the 1440 labels "00:00" to "23:59"
    in order and as many prices; the price of slot [i] is the close of the
    first candle that opens in that minute of the local day, and [null]
    when no candle does. *)
Theorem today_series_is_full_grid `{Host} (data : list Kline) :
  let '(labels, prices) := buildSeries I1m data in
  labels = minuteGrid
  /\ List.length labels = 1440%nat
  /\ List.length prices = 1440%nat
  /\ (forall i, (i < 1440)%nat -> SlotPrice data i (nth i prices Undefined)).
Proof.
  cbn [buildSeries].
  pose proof (todayLabels_grid data) as Hl.
  pose proof (f_equal snd (todaySeries_maps data)) as Hp.
  destruct (todaySeries data) as [labels prices].
  cbn [fst snd] in Hl, Hp.
  split; [|split; [|split]].
  - exact Hl.
  - rewrite Hl. reflexivity.
  - rewrite Hp, length_map, length_seq. reflexivity.
  - intros i Hi. rewrite Hp.
    rewrite (nth_indep _ Undefined (slotOf data (0 / 60) (0 mod 60)))
      by (rewrite length_map, length_seq; exact Hi).
    rewrite (map_nth (fun i => slotOf data (i / 60) (i mod 60))).
    rewrite seq_nth by exact Hi.
    apply slotOf_spec.
Qed.

Lemma today_series_is_full_grid_witness :
  (1335 < 1440)%nat
  /\ SlotPrice (H := utcHost) sampleCandles 1335
       (nth 1335 (snd (buildSeries (H := utcHost) I1m sampleCandles))
          Undefined).
Proof.
  split; [lia|].
  pose proof (today_series_is_full_grid (H := utcHost) sampleCandles) as T.
  destruct (buildSeries (H := utcHost) I1m sampleCandles) as [labels prices].
  destruct T as (_ & _ & _ & T). apply T. lia.
Defined.

Example sample_slot_first_match_wins :
  nth 1335 (snd (buildSeries (H := utcHost) I1m sampleCandles)) Undefined
  = Num (Fin (3695125 # 100)).
Proof. vm_compute. reflexivity. Qed.

Example sample_slot_empty :
  nth 0 (snd (buildSeries (H := utcHost) I1m sampleCandles)) Undefined = Null.
Proof. vm_compute. reflexivity. Qed.

Example sample_timestamp :
  timestampOf (H := utcHost) (t sampleMessage) = "22:15"
  /\ timestampOf (H := utcHost) (t midnightMessage) = "00:00".
Proof. split; reflexivity. Qed.

Example taipei_timestamp :
  timestampOf
    (H := {| parseFloat := fun _ => NaN; LocalTZA := fun _ _ => 28800000 |})
    1700000100000 = "06:15".
Proof. reflexivity. Qed.

Example sample_date :
  (getFullYear (H := utcHost) 1700000040000,
   getMonth (H := utcHost) 1700000040000,
   getDate (H := utcHost) 1700000040000,
   getHours (H := utcHost) 1700000040000,
   getMinutes (H := utcHost) 1700000040000) = (2023, 10, 14, 22, 14).
Proof. vm_compute. reflexivity. Qed.

Example leap_day :
  (getMonth (H := utcHost) 1709164800000,
   getDate (H := utcHost) 1709164800000,
   yearStartOf (H := utcHost) 2024) = (1, 29, 1704067200000).
Proof. vm_compute. reflexivity. Qed.

(** ** Arrays: [indexOf], [findLastIndex], [filter(...).pop()], writes *)

Lemma indexOf_from_range (l : list string) (x : string) (i : Z) :
  0 <= i -> indexOf_from i l x = -1 \/ i <= indexOf_from i l x.
Proof.
  revert i; induction l as [|y l IH]; intros i Hi; simpl.
  - now left.
  - destruct (String.eqb y x).
    + right; lia.
    + destruct (IH (i + 1)) as [E|E]; [lia| now left | right; lia].
Qed.

Lemma indexOf_from_absent (l : list string) (x : string) (i : Z) :
  0 <= i -> (indexOf_from i l x = -1 <-> ~ In x l).
Proof.
  revert i; induction l as [|y l IH]; intros i Hi; simpl.
  - tauto.
  - destruct (String.eqb y x) eqn:E.
    + apply String.eqb_eq in E. split; [lia | intros N; exfalso; auto].
    + apply String.eqb_neq in E.
      rewrite (IH (i + 1)) by lia. tauto.
Qed.

Lemma indexOf_absent (l : list string) (x : string) :
  indexOf l x = -1 <-> ~ In x l.
Proof. apply indexOf_from_absent. lia. Qed.

Lemma indexOf_present (l : list string) (x : string) :
  In x l -> 0 <= indexOf l x.
Proof.
  intros Hin. destruct (indexOf_from_range l x 0) as [E|E]; try lia.
  - apply indexOf_absent in E. contradiction.
  - exact E.
Qed.

Lemma last_cons_nonempty {A} (x d : A) (l : list A) :
  l <> [] -> last (x :: l) d = last l d.
Proof. destruct l; [congruence | reflexivity]. Qed.

(** [findLastIndex] against [filter(...).pop()]: either nothing satisfies
    the predicate, or the index found is that of the element [pop] gives. *)
Lemma findLastIndex_from_spec (l : list value) (i : Z) :
  0 <= i ->
  (findLastIndex_from i notNull l = -1 /\ filter notNull l = [])
  \/ (i <= findLastIndex_from i notNull l
      /\ findLastIndex_from i notNull l - i < Z.of_nat (List.length l)
      /\ filter notNull l <> []
      /\ last (filter notNull l) Undefined
         = nth (Z.to_nat (findLastIndex_from i notNull l - i)) l Undefined).
Proof.
  revert i; induction l as [|x l IH]; intros i Hi.
  - left. split; reflexivity.
  - cbn [findLastIndex_from filter List.length].
    destruct (IH (i + 1)) as [[E F]|(R1 & R2 & R3 & R4)]; [lia| |].
    + rewrite E, F. cbn [Z.leb Z.compare].
      destruct (notNull x) eqn:Hx.
      * right. repeat split; try lia; [discriminate|].
        replace (i - i) with 0 by lia. reflexivity.
      * left. split; reflexivity.
    + set (r := findLastIndex_from (i + 1) notNull l) in *.
      replace (0 <=? r) with true by (symmetry; apply Z.leb_le; lia).
      right. repeat split; try lia.
      * destruct (notNull x); [discriminate | exact R3].
      * replace (Z.to_nat (r - i)) with (S (Z.to_nat (r - (i + 1)))) by lia.
        cbn [nth]. rewrite <- R4.
        destruct (notNull x); [apply last_cons_nonempty; exact R3 | reflexivity].
Qed.

Lemma pop_filter_lastNonNull (prices : list value) :
  0 <= lastNonNull prices ->
  pop (filter notNull prices) = get prices (lastNonNull prices).
Proof.
  intros Hpos. unfold lastNonNull, findLastIndex, pop, get in *.
  destruct (findLastIndex_from_spec prices 0) as [[E _]|(R1 & _ & _ & R4)];
    [lia | lia |].
  replace (findLastIndex_from 0 notNull prices <? 0) with false
    by (symmetry; apply Z.ltb_ge; lia).
  rewrite R4. now rewrite Z.sub_0_r.
Qed.

Lemma lastNonNull_in_range (prices : list value) :
  0 <= lastNonNull prices ->
  lastNonNull prices < Z.of_nat (List.length prices).
Proof.
  intros Hpos. unfold lastNonNull, findLastIndex in *.
  destruct (findLastIndex_from_spec prices 0) as [[E _]|(_ & R2 & _)]; lia.
Qed.

Lemma set_nat_nth (l : list value) (n : nat) (v : value) :
  nth n (set_nat l n v) Undefined = v.
Proof.
  revert l; induction n as [|n IH]; intros [|x l]; simpl; auto.
Qed.

Lemma set_nat_length (l : list value) (n : nat) (v : value) :
  (n < List.length (set_nat l n v))%nat.
Proof.
  revert l; induction n as [|n IH]; intros [|x l]; simpl; try lia.
  - specialize (IH []). lia.
  - specialize (IH l). lia.
Qed.

Lemma findLastIndex_from_set (l : list value) (n : nat) (i : Z) (v : value) :
  0 <= i -> notNull v = true ->
  findLastIndex_from i notNull l <= i + Z.of_nat n ->
  findLastIndex_from i notNull (set_nat l n v) = i + Z.of_nat n.
Proof.
  revert l i; induction n as [|n IH]; intros [|x l] i Hi Hv Hle.
  - cbn. rewrite Hv. lia.
  - cbn [set_nat findLastIndex_from] in *.
    destruct (findLastIndex_from_spec l (i + 1)) as [[E _]|(R1 & _)]; [lia| |].
    + rewrite E. cbn [Z.leb Z.compare]. rewrite Hv. lia.
    + replace (0 <=? findLastIndex_from (i + 1) notNull l) with true in Hle
        by (symmetry; apply Z.leb_le; lia). lia.
  - cbn [set_nat findLastIndex_from].
    rewrite (IH [] (i + 1)) by (cbn; lia || assumption).
    replace (0 <=? i + 1 + Z.of_nat n) with true
      by (symmetry; apply Z.leb_le; lia). lia.
  - cbn [set_nat findLastIndex_from] in *.
    assert (Hl : findLastIndex_from (i + 1) notNull l <= i + 1 + Z.of_nat n).
    { destruct (0 <=? findLastIndex_from (i + 1) notNull l) eqn:E; [lia|].
      apply Z.leb_gt in E. lia. }
    rewrite (IH l (i + 1)) by (lia || assumption).
    replace (0 <=? i + 1 + Z.of_nat n) with true
      by (symmetry; apply Z.leb_le; lia). lia.
Qed.

Lemma lastNonNull_set (prices : list value) (i : Z) (v : value) :
  0 <= i -> notNull v = true -> lastNonNull prices <= i ->
  lastNonNull (set prices i v) = i.
Proof.
  intros Hi Hv Hle. unfold lastNonNull, findLastIndex, set in *.
  replace (i <? 0) with false by (symmetry; apply Z.ltb_ge; lia).
  rewrite findLastIndex_from_set; try assumption; lia.
Qed.

Lemma get_set (prices : list value) (i : Z) (v : value) :
  0 <= i -> get (set prices i v) i = v.
Proof.
  intros Hi. unfold get, set.
  replace (i <? 0) with false by (symmetry; apply Z.ltb_ge; lia).
  apply set_nat_nth.
Qed.

Lemma set_nonempty (prices : list value) (i : Z) (v : value) :
  0 <= i -> 0 < Z.of_nat (List.length (set prices i v)).
Proof.
  intros Hi. unfold set.
  replace (i <? 0) with false by (symmetry; apply Z.ltb_ge; lia).
  pose proof (set_nat_length prices (Z.to_nat i) v). lia.
Qed.

(** ** Comparisons *)



Example sample_history_run :
  historicalRun (H := utcHost) I1m now0 sampleServer 5
  = ([ {| rqInterval := "1m"; rqStartTime := Some 1699920000000;
          rqEndTime := Some 1699980000000; rqLimit := 1000 |};
       {| rqInterval := "1m"; rqStartTime := Some 1700000160000;
          rqEndTime := Some 1700006399999; rqLimit := 1000 |} ],
     Done sampleCandles).
Proof. vm_compute. reflexivity. Qed.

(** ** Colours without a baseline *)

(** On the initial path a [null] previous close gives the gray line, and
    the gray marker wherever a marker is drawn. *)
Lemma initial_neutral_without_baseline (prices : list value) (dataIndex : Z) :
  initialBorderColor prices Null = GRAY
  /\ (initialPointBackgroundColor prices Null dataIndex = GRAY
      \/ initialPointBackgroundColor prices Null dataIndex = TRANSPARENT).
Proof.
  unfold initialBorderColor, initialPointBackgroundColor.
  cbn [notNull]. rewrite !andb_false_r. split; [reflexivity|].
  destruct (_ && _); auto.
Qed.

(** On the live path the line is gray as well. *)
Lemma live_line_neutral_without_baseline (closePrice : value) :
  liveBorderColor closePrice Null = GRAY.
Proof. reflexivity. Qed.

(** The marker closure of the live path has no gray branch: whatever the
    previous close, the merged slot is green or red. *)
Lemma live_marker_never_neutral (timeIndex : Z) (closePrice previousClose : value)
    (dataIndex : Z) :
  livePointBackgroundColor timeIndex closePrice previousClose dataIndex <> GRAY.
Proof.
  unfold livePointBackgroundColor.
  destruct (dataIndex =? timeIndex); [destruct (gt closePrice previousClose)|];
    discriminate.
Qed.

(** A positive close against a [null] previous close compares with zero. *)
Example positive_close_exceeds_null :
  gt (Num (Fin (3695200 # 100))) Null = true.
Proof. reflexivity. Qed.

(** C2. With the previous close still [null], the history loaded and the
    stream update of 22:15 merged, the line is gray but the marker of the
    merged slot is green: the marker closure of [ws.onmessage] compares the
    close with [null], which counts as zero, where the line colour next to
    it and the marker of the initial path test [previousClose !== null]. *)
Theorem live_marker_colored_without_baseline :
  let final :=
    run (H := utcHost) mount
      [HistoricalSettles 1 now0 sampleServer 5; StreamMessage sampleMessage] in
  option_map previousClose final = Some Null
  /\ option_map (fun st => borderColor (prices (chartData st))) final
     = Some (Some GRAY)
  /\ option_map (fun st => markerColorAt (chartData st) 1335) final
     = Some (Some GREEN)
  /\ option_map (fun st => markerRadiusAt (chartData st) 1335) final
     = Some (Some 6).
Proof. vm_compute. repeat split; reflexivity. Qed.

(** ** The previous close that is stored is never falsy *)

Lemma In_removeNth {A} (x : A) (n : nat) (l : list A) :
  In x (removeNth n l) -> In x l.
Proof.
  revert n; induction l as [|y l IH]; intros [|n]; cbn; auto.
  intros [->|Hin]; eauto.
Qed.

Lemma runEffects_baselinesOk (old new : State) :
  baselinesOk new -> baselinesOk (runEffects old new).
Proof.
  intros (Hp & Hw & Hf). unfold baselinesOk, runEffects.
  cbn [previousClose ws inflight]. split; [exact Hp|]. split.
  - intros i v.
    destruct (_ || _); [|apply Hw].
    destruct (interval new); intros [=]; subst; exact Hp.
  - intros i v Hin.
    apply in_app_or in Hin. destruct Hin as [Hin|Hin]; [eapply Hf; eauto|].
    apply in_app_or in Hin. destruct Hin as [Hin|Hin].
    + destruct (negb (Interval_eqb _ _)); cbn in Hin;
        [destruct Hin as [[=]|[]] | contradiction].
    + destruct (_ || _); cbn in Hin; [|contradiction].
      destruct Hin as [[= _ <-]|[]]. exact Hp.
Qed.

Lemma withoutTask_baselinesOk (n : nat) (st : State) :
  baselinesOk st -> baselinesOk (withoutTask n st).
Proof.
  intros (Hp & Hw & Hf). unfold baselinesOk, withoutTask.
  cbn [previousClose ws inflight]. repeat split; auto.
  intros i v Hin. apply In_removeNth in Hin. eauto.
Qed.

Lemma step_baselinesOk `{Host} (st st' : State) (e : Event) :
  baselinesOk st -> step st e = Some st' -> baselinesOk st'.
Proof.
  intros Hok. destruct e as [i|n response|n now fetch fuel|msg]; cbn [step].
  - intros [= <-]. apply runEffects_baselinesOk.
    destruct Hok as (Hp & Hw & Hf). repeat split; auto.
  - destruct (nth_error (inflight st) n) as [[captured|]|]; try discriminate.
    intros [= <-]. pose proof (withoutTask_baselinesOk n st Hok) as Hok'.
    unfold onPreviousClose. destruct response as [data|]; [|exact Hok'].
    destruct (toBoolean (selectPreviousClose captured data)) eqn:E;
      [|exact Hok'].
    apply runEffects_baselinesOk.
    destruct Hok' as (Hp & Hw & Hf). repeat split; auto. now right.
  - destruct (nth_error (inflight st) n) as [[|captured pc]|]; try discriminate.
    pose proof (withoutTask_baselinesOk n st Hok) as Hok'.
    destruct (fetchHistoricalData captured pc now fetch fuel);
      intros [= <-]; auto.
  - destruct (ws st); [|discriminate]. intros [= <-]. exact Hok.
Qed.

Lemma stored_previousClose_truthy `{Host} (es : list Event) :
  forall st st', baselinesOk st -> run st es = Some st' -> baselinesOk st'.
Proof.
  induction es as [|e es IH]; intros st st' Hok; cbn [run].
  - intros [= <-]. exact Hok.
  - destruct (step st e) as [st1|] eqn:E; [|discriminate].
    apply IH. eapply step_baselinesOk; eauto.
Qed.

Lemma mount_baselinesOk : baselinesOk mount.
Proof.
  unfold baselinesOk, mount; cbn. repeat split.
  - now left.
  - intros i v [= _ <-]. now left.
  - intros i v [[=]|[[= _ <-]|[]]]. now left.
Qed.

(** In every state the component reaches, the previous close is [null] or
    truthy. *)
Lemma reachable_previousClose_truthy `{Host} (es : list Event) (st : State) :
  run mount es = Some st -> nullOrTruthy (previousClose st).
Proof.
  intros Hrun.
  apply (stored_previousClose_truthy es mount st mount_baselinesOk Hrun).
Qed.

(** ** The two styling paths *)

Lemma mergeUpdate_unmatched (interval : Interval) (previousClose closePrice : value)
    (timestamp : string) (prev : ChartData) :
  ~ In timestamp (labels prev) ->
  mergeUpdate interval previousClose closePrice timestamp prev = prev.
Proof.
  intros Hno. unfold mergeUpdate.
  apply indexOf_absent in Hno. rewrite Hno. reflexivity.
Qed.

Lemma mergeUpdate_matched (interval : Interval) (previousClose closePrice : value)
    (timestamp : string) (prev : ChartData) :
  In timestamp (labels prev) ->
  let timeIndex := indexOf (labels prev) timestamp in
  let newData := set (data (prices prev)) timeIndex closePrice in
  mergeUpdate interval previousClose closePrice timestamp prev
  = {| labels := labels prev;
       prices :=
         {| data := newData;
            spanGaps := spanGaps (prices prev);
            pointRadius := Some (livePointRadius timeIndex);
            pointBackgroundColor :=
              Some (livePointBackgroundColor timeIndex closePrice previousClose);
            pointBorderColor := Some (livePointBorderColor timeIndex);
            borderColor := Some (liveBorderColor closePrice previousClose) |};
       reference :=
         referenceLine interval previousClose (List.length (labels prev)) |}.
Proof.
  intros Hin. cbv zeta. unfold mergeUpdate.
  pose proof (indexOf_present _ _ Hin) as Hpos.
  replace (indexOf (labels prev) timestamp =? -1) with false
    by (symmetry; apply Z.eqb_neq; lia).
  reflexivity.
Qed.

(** A close of zero is falsy: the initial path then draws the line gray,
    the live path red. *)
Example zero_close_line_colours :
  initialBorderColor [Num (Fin 0)] (Num (Fin 100)) = GRAY
  /\ liveBorderColor (Num (Fin 0)) (Num (Fin 100)) = RED.
Proof. split; reflexivity. Qed.

(** The chart after the history of today loaded and the update of the first
    minute of the next day arrived: slot 0 carries the marker, the last
    non-null price sits in slot 1335 and has radius zero. *)
Lemma merge_after_midnight_marks_first_slot :
  let final :=
    run (H := utcHost) mount
      [HistoricalSettles 1 now0 sampleServer 5; StreamMessage midnightMessage] in
  option_map (fun st => lastNonNull (data (prices (chartData st)))) final
  = Some 1335
  /\ option_map (fun st => markerRadiusAt (chartData st) 1335) final
     = Some (Some 0)
  /\ option_map (fun st => markerRadiusAt (chartData st) 0) final
     = Some (Some 6).
Proof. vm_compute. repeat split; reflexivity. Qed.

(** C3 (amended). On the initial path exactly the index of the last
    non-null price has a non-zero radius.  After a merge exactly the merged
    slot has one; when no later slot holds a price the merged slot is the
    index of the last non-null price, the radii are those of the initial
    path on the merged series, and so are the marker colours when the
    previous close is present and the line colour when the close of the
    update is a non-zero number. *)
Theorem merge_styles_as_initial_on_last_slot
    (prices0 : list value) (interval : Interval) (previousClose : value)
    (close : number) (timestamp : string) (prev : ChartData) :
  let closePrice := Num close in
  let timeIndex := indexOf (labels prev) timestamp in
  let next := mergeUpdate interval previousClose closePrice timestamp prev in
  (forall i, initialPointRadius prices0 i <> 0 <-> i = lastNonNull prices0)
  /\ (In timestamp (labels prev) ->
      (forall i, markerRadiusAt next i = Some (if i =? timeIndex then 6 else 0))
      /\ (lastNonNull (data (prices prev)) <= timeIndex ->
          lastNonNull (data (prices next)) = timeIndex
          /\ (forall i, markerRadiusAt next i
                        = Some (initialPointRadius (data (prices next)) i))
          /\ (notNull previousClose = true ->
              forall i, markerColorAt next i
                        = Some (initialPointBackgroundColor
                                  (data (prices next)) previousClose i))
          /\ (toBoolean closePrice = true ->
              borderColor (prices next)
              = Some (initialBorderColor (data (prices next)) previousClose)))).
Proof.
  cbv zeta. split.
  - intros i. unfold initialPointRadius.
    destruct (i =? lastNonNull prices0) eqn:E.
    + apply Z.eqb_eq in E. split; [auto | discriminate].
    + apply Z.eqb_neq in E. split; [congruence | contradiction].
  - intros Hin.
    pose proof (indexOf_present _ _ Hin) as Hpos.
    rewrite (mergeUpdate_matched _ _ _ _ _ Hin).
    unfold markerRadiusAt, markerColorAt. cbn [prices data pointRadius
      pointBackgroundColor borderColor option_map].
    split; [reflexivity|]. intros Hle.
    set (timeIndex := indexOf (labels prev) timestamp) in *.
    set (newData := set (data (prices prev)) timeIndex (Num close)).
    assert (Hlast : lastNonNull newData = timeIndex)
      by (apply lastNonNull_set; auto).
    assert (Hget : get newData timeIndex = Num close) by (apply get_set; auto).
    split; [exact Hlast|]. split; [|split].
    + intros i. unfold initialPointRadius, livePointRadius.
      rewrite Hlast. reflexivity.
    + intros Hpc i.
      unfold initialPointBackgroundColor, livePointBackgroundColor.
      rewrite Hlast, Hpc. destruct (i =? timeIndex) eqn:E; [|reflexivity].
      apply Z.eqb_eq in E. subst i. rewrite Hget. cbn [notNull andb].
      replace (0 <? Z.of_nat (List.length newData)) with true
        by (symmetry; apply Z.ltb_lt; apply set_nonempty; auto).
      reflexivity.
    + intros Htruthy. unfold initialBorderColor, liveBorderColor.
      rewrite pop_filter_lastNonNull by (rewrite Hlast; exact Hpos).
      rewrite Hlast, Hget, Htruthy. reflexivity.
Qed.

Lemma merge_styles_as_initial_on_last_slot_witness :
  let next :=
    mergeUpdate I1m (Num (Fin 100)) (Num (Fin 105)) "00:01" twoSlotChart in
  lastNonNull (data (prices next)) = 1
  /\ (forall i, markerColorAt next i
                = Some (initialPointBackgroundColor (data (prices next))
                          (Num (Fin 100)) i))
  /\ borderColor (prices next)
     = Some (initialBorderColor (data (prices next)) (Num (Fin 100))).
Proof.
  cbv zeta.
  destruct (merge_styles_as_initial_on_last_slot [] I1m (Num (Fin 100))
              (Fin 105) "00:01" twoSlotChart) as (_ & T).
  destruct T as (_ & T); [simpl; auto|].
  destruct T as (T1 & _ & T3 & T4); [vm_compute; discriminate|].
  split; [exact T1|]. split; [apply T3; reflexivity | apply T4; reflexivity].
Defined.

(** ** Ties *)





(** ** Updates without a slot *)

Section Messages.
Context `{Host}.

(** C7. A stream update whose HH:MM label is not among the labels of the
    current chart leaves the chart, series and styling, as it is. *)
Theorem unmatched_update_leaves_chart
    (captured : Interval * value) (msg : KlineMsg) (st : State) :
  ~ In (timestampOf (t msg)) (labels (chartData st)) ->
  chartData (onmessage captured msg st) = chartData st.
Proof.
  intros Hno. unfold onmessage. cbn [chartData].
  now apply mergeUpdate_unmatched.
Qed.

(** C10. Every message delivered while the socket is open sets the current
    price to the close of the message, also when the update finds no slot
    and the chart stays as it is. *)
Theorem message_sets_current_price
    (captured : Interval * value) (msg : KlineMsg) (st : State) :
  ws st = Some captured ->
  exists st',
    step st (StreamMessage msg) = Some st'
    /\ currentPrice st' = Num (parseFloat (c msg))
    /\ (~ In (timestampOf (t msg)) (labels (chartData st)) ->
        chartData st' = chartData st).
Proof.
  intros Hws. exists (onmessage captured msg st).
  cbn [step]. rewrite Hws. split; [reflexivity|].
  split; [reflexivity|].
  intros Hno. unfold onmessage. cbn [chartData].
  now apply mergeUpdate_unmatched.
Qed.

End Messages.

Lemma unmatched_update_leaves_chart_witness :
  chartData (onmessage (H := utcHost) (I1m, Null) sampleMessage mount)
  = chartData mount.
Proof.
  apply (unmatched_update_leaves_chart (H := utcHost)).
  simpl. tauto.
Defined.

Lemma message_sets_current_price_witness :
  currentPrice mount = Null
  /\ exists st',
       step (H := utcHost) mount (StreamMessage sampleMessage) = Some st'
       /\ currentPrice st' = Num (Fin (3695200 # 100))
       /\ (~ In (timestampOf (H := utcHost) (t sampleMessage))
               (labels (chartData mount)) ->
           chartData st' = chartData mount).
Proof.
  split; [reflexivity|].
  apply (message_sets_current_price (H := utcHost) (I1m, Null) sampleMessage mount).
  reflexivity.
Defined.

(** ** The previous close *)

Lemma closeOrNull_row `{Host} (row : Kline) :
  k4 row <> "" -> closeOrNull (Some row) = Num (parseFloat (k4 row)).
Proof.
  intros Hne. unfold closeOrNull.
  destruct (String.eqb (k4 row) "") eqn:E; [|reflexivity].
  apply String.eqb_eq in E. contradiction.
Qed.

Lemma rowAt_second_to_last (front : list Kline) (a b : Kline) :
  rowAt (front ++ [a; b]) (Z.of_nat (List.length (front ++ [a; b])) - 2)
  = Some a.
Proof.
  unfold rowAt. rewrite length_app. cbn [List.length].
  replace (Z.of_nat (List.length front + 2) - 2 <? 0) with false
    by (symmetry; apply Z.ltb_ge; lia).
  replace (Z.to_nat (Z.of_nat (List.length front + 2) - 2))
    with (List.length front + 0)%nat by lia.
  rewrite nth_error_app2 by lia.
  replace (List.length front + 0 - List.length front)%nat with 0%nat by lia.
  reflexivity.
Qed.

(** C9. For Today the previous close is asked at daily granularity with a
    limit of two rows and is the close of the second-to-last row; for every
    other interval it is asked at the granularity and over the window of
    that interval's historical fetch and is the close of the first row.
    The close selected is stored as the previous close when it is truthy. *)
Theorem previous_close_rule `{Host} (now : Z) :
  (previousCloseRequest I1m now
   = {| rqInterval := "1d"; rqStartTime := None; rqEndTime := None;
        rqLimit := 2 |}
   /\ forall front yesterday today,
        k4 yesterday <> "" ->
        selectPreviousClose I1m (front ++ [yesterday; today])
        = Num (parseFloat (k4 yesterday)))
  /\ (forall interval,
        interval <> I1m ->
        let cfg := getTimeConfig interval now in
        rqInterval (previousCloseRequest interval now) = apiInterval cfg
        /\ rqStartTime (previousCloseRequest interval now)
           = Some (startTime cfg)
        /\ rqEndTime (previousCloseRequest interval now) = Some (endTime cfg)
        /\ forall oldest rest,
             k4 oldest <> "" ->
             selectPreviousClose interval (oldest :: rest)
             = Num (parseFloat (k4 oldest)))
  /\ (forall captured data st,
        toBoolean (selectPreviousClose captured data) = true ->
        previousClose (onPreviousClose captured (Some data) st)
        = selectPreviousClose captured data).
Proof.
  split; [|split].
  - split; [reflexivity|].
    intros front yesterday today Hne.
    cbn [selectPreviousClose].
    rewrite rowAt_second_to_last. now apply closeOrNull_row.
  - intros interval Hi.
    destruct interval; [exfalso; now apply Hi | ..];
      cbv [previousCloseRequest getTimeConfig rqInterval rqStartTime
           rqEndTime apiInterval startTime endTime];
      (split; [reflexivity|]; split; [reflexivity|]; split; [reflexivity|];
       intros oldest rest Hne; cbn [selectPreviousClose];
       unfold rowAt; cbn [Z.ltb Z.compare Z.to_nat nth_error];
       now apply closeOrNull_row).
  - intros captured data st Htruthy.
    unfold onPreviousClose. rewrite Htruthy. reflexivity.
Qed.

Lemma previous_close_rule_witness :
  selectPreviousClose (H := utcHost) I1m dailyRows = Num (Fin (3560000 # 100))
  /\ rqStartTime (previousCloseRequest (H := utcHost) I1w now0)
     = Some (now0 - 604800000)
  /\ selectPreviousClose (H := utcHost) I1w hourlyRows
     = Num (Fin (3521050 # 100))
  /\ previousClose
       (onPreviousClose (H := utcHost) I1w (Some hourlyRows) mount)
     = Num (Fin (3521050 # 100)).
Proof.
  destruct (previous_close_rule (H := utcHost) now0) as ((_ & T1) & T2 & T3).
  split; [|split; [|split]].
  - apply (T1 [] {| k0 := 1699833600000; k4 := "35600.00" |}
                 {| k0 := 1699920000000; k4 := "36950.10" |}).
    discriminate.
  - destruct (T2 I1w) as (_ & S & _); [discriminate | exact S].
  - destruct (T2 I1w) as (_ & _ & _ & S); [discriminate|].
    apply (S {| k0 := 1699394400000; k4 := "35210.50" |}). discriminate.
  - apply (T3 I1w hourlyRows mount). reflexivity.
Defined.

(** ** Failed pages *)

Lemma fetchBatches_failed_request (fetch : KlineRequest -> Response)
    (cfg : TimeConfig) (rq : KlineRequest) (fuel : nat) :
  forall allData currentStartTime,
    In rq (fst (fetchBatches fetch cfg fuel allData currentStartTime)) ->
    fetch rq = None ->
    snd (fetchBatches fetch cfg fuel allData currentStartTime) = Thrown.
Proof.
  induction fuel as [|fuel IH]; intros allData cur Hin Hfail;
    cbn [fetchBatches] in *.
  - destruct (cur <? endTime cfg); cbn in Hin; contradiction.
  - destruct (cur <? endTime cfg); [|cbn in Hin; contradiction].
    destruct (fetch (batchRequest cfg cur)) as [batchData|] eqn:Hpage;
      [|reflexivity].
    destruct (Z.of_nat (List.length batchData) =? 0).
    + cbn in Hin. destruct Hin as [<-|[]]. congruence.
    + specialize (IH (allData ++ batchData)
                     (lastOpenTime batchData + intervalMs cfg)).
      destruct (fetchBatches fetch cfg fuel (allData ++ batchData)
                  (lastOpenTime batchData + intervalMs cfg)) as [rqs out].
      cbn [fst snd] in *. destruct Hin as [<-|Hin]; [congruence|].
      now apply IH.
Qed.

(** C6. If a page request issued by the historical fetch fails, the loop
    ends by the throw, [fetchHistoricalData] does not call [setChartData],
    and the chart of the component is the one it had before: the rows of
    the earlier pages are dropped. *)
Theorem failed_page_publishes_nothing `{Host}
    (interval : Interval) (previousClose : value) (now : Z)
    (fetch : KlineRequest -> Response) (fuel : nat) (rq : KlineRequest) :
  In rq (fst (historicalRun interval now fetch fuel)) ->
  fetch rq = None ->
  snd (historicalRun interval now fetch fuel) = Thrown
  /\ fetchHistoricalData interval previousClose now fetch fuel = Logged
  /\ forall st n,
       nth_error (inflight st) n = Some (HistoricalFetch interval previousClose) ->
       exists st',
         step st (HistoricalSettles n now fetch fuel) = Some st'
         /\ chartData st' = chartData st.
Proof.
  intros Hin Hfail.
  assert (Hthrown : snd (historicalRun interval now fetch fuel) = Thrown)
    by (eapply fetchBatches_failed_request; eauto).
  assert (Hlogged :
            fetchHistoricalData interval previousClose now fetch fuel = Logged)
    by (unfold fetchHistoricalData; now rewrite Hthrown).
  repeat split; auto.
  intros st n Htask. exists (withoutTask n st).
  cbn [step]. rewrite Htask, Hlogged. split; reflexivity.
Qed.

Lemma failed_page_publishes_nothing_witness :
  List.length (fst (historicalRun (H := utcHost) I1m now0 flakyServer 5)) = 2%nat
  /\ fetchHistoricalData (H := utcHost) I1m Null now0 flakyServer 5 = Logged
  /\ exists st',
       step (H := utcHost) mount (HistoricalSettles 1 now0 flakyServer 5)
       = Some st'
       /\ chartData st' = chartData mount.
Proof.
  split; [vm_compute; reflexivity|].
  destruct (failed_page_publishes_nothing (H := utcHost) I1m Null now0
              flakyServer 5
              {| rqInterval := "1m"; rqStartTime := Some 1700000160000;
                 rqEndTime := Some 1700006399999; rqLimit := 1000 |})
    as (_ & T2 & T3).
  - vm_compute. right. left. reflexivity.
  - reflexivity.
  - split; [exact T2|]. apply (T3 mount 1%nat). reflexivity.
Defined.

(** ** The batch loop *)

Lemma fetchBatches_done (fetch : KlineRequest -> Response) (cfg : TimeConfig)
    (fuel : nat) (allData : list Kline) (currentStartTime : Z) :
  endTime cfg <= currentStartTime ->
  fetchBatches fetch cfg fuel allData currentStartTime = ([], Done allData).
Proof.
  intros Hend.
  destruct fuel; cbn [fetchBatches];
    replace (currentStartTime <? endTime cfg) with false
      by (symmetry; apply Z.ltb_ge; lia); reflexivity.
Qed.

Lemma fetchBatches_empty_page (fetch : KlineRequest -> Response)
    (cfg : TimeConfig) (fuel : nat) (allData : list Kline)
    (currentStartTime : Z) :
  currentStartTime < endTime cfg ->
  fetch (batchRequest cfg currentStartTime) = Some [] ->
  fetchBatches fetch cfg (S fuel) allData currentStartTime
  = ([batchRequest cfg currentStartTime], Done allData).
Proof.
  intros Hlt Hpage. cbn [fetchBatches].
  replace (currentStartTime <? endTime cfg) with true
    by (symmetry; apply Z.ltb_lt; lia).
  rewrite Hpage. reflexivity.
Qed.

Lemma fetchBatches_page (fetch : KlineRequest -> Response) (cfg : TimeConfig)
    (fuel : nat) (allData batchData : list Kline) (currentStartTime : Z) :
  currentStartTime < endTime cfg ->
  fetch (batchRequest cfg currentStartTime) = Some batchData ->
  batchData <> [] ->
  fetchBatches fetch cfg (S fuel) allData currentStartTime
  = (batchRequest cfg currentStartTime
       :: fst (fetchBatches fetch cfg fuel (allData ++ batchData)
                 (lastOpenTime batchData + intervalMs cfg)),
     snd (fetchBatches fetch cfg fuel (allData ++ batchData)
            (lastOpenTime batchData + intervalMs cfg))).
Proof.
  intros Hlt Hpage Hne. cbn [fetchBatches].
  replace (currentStartTime <? endTime cfg) with true
    by (symmetry; apply Z.ltb_lt; lia).
  rewrite Hpage.
  replace (Z.of_nat (List.length batchData) =? 0) with false
    by (symmetry; apply Z.eqb_neq; destruct batchData; [congruence | cbn; lia]).
  destruct (fetchBatches fetch cfg fuel (allData ++ batchData)
              (lastOpenTime batchData + intervalMs cfg)).
  reflexivity.
Qed.

Lemma floor_between (ms x k : Z) :
  0 < ms -> k * ms <= x < (k + 1) * ms -> x / ms = k.
Proof.
  intros Hms Hx. symmetry.
  apply (Z.div_unique x ms k (x - k * ms)); lia.
Qed.

Lemma ceil_between (ms x k : Z) :
  0 < ms -> (k - 1) * ms < x <= k * ms -> - ((- x) / ms) = k.
Proof.
  intros Hms Hx. rewrite (floor_between ms (- x) (- k)); lia.
Qed.

Lemma buckets_length (ms : Z) (quote : Z -> string) (first : Z) (n : nat) :
  List.length (buckets ms quote first n) = n.
Proof. unfold buckets. now rewrite length_map, length_seq. Qed.

Lemma map_seq_offset {A} (f : nat -> A) (a m : nat) :
  map f (seq a m) = map (fun j => f (a + j)%nat) (seq 0 m).
Proof.
  revert a f; induction m as [|m IH]; intros a f; cbn [seq map].
  - reflexivity.
  - f_equal; [f_equal; lia|].
    rewrite (IH (S a) f), (IH 1%nat (fun j => f (a + j)%nat)).
    apply map_ext. intros j. f_equal. lia.
Qed.

Lemma buckets_app (ms : Z) (quote : Z -> string) (first : Z) (n m : nat) :
  buckets ms quote first (n + m)
  = buckets ms quote first n ++ buckets ms quote (first + Z.of_nat n) m.
Proof.
  unfold buckets. rewrite seq_app, map_app. f_equal. cbn [Nat.add].
  rewrite map_seq_offset. apply map_ext. intros j.
  replace (first + Z.of_nat n + Z.of_nat j) with (first + Z.of_nat (n + j))
    by lia.
  reflexivity.
Qed.

Lemma buckets_last (ms : Z) (quote : Z -> string) (first : Z) (n : nat) :
  lastOpenTime (buckets ms quote first (S n)) = (first + Z.of_nat n) * ms.
Proof.
  unfold lastOpenTime, buckets.
  rewrite seq_S, map_app. cbn [map Nat.add]. rewrite last_last. reflexivity.
Qed.

Lemma buckets_open_times (ms : Z) (quote : Z -> string) (first : Z) (n : nat) :
  map k0 (buckets ms quote first n)
  = map (fun j => (first + Z.of_nat j) * ms) (seq 0 n).
Proof. unfold buckets. rewrite map_map. reflexivity. Qed.

(** A page of the exchange: the request from [cur], whose first bucket is
    [k], is answered with [n] buckets when the page ends inside bucket
    [k + n - 1], or with the full thousand when it ends later. *)
Lemma exchange_page (ms : Z) (quote : Z -> string) (cfg : TimeConfig)
    (cur k : Z) (n : nat) :
  0 < ms -> intervalMs cfg = ms ->
  (k - 1) * ms < cur <= k * ms ->
  (n <= 1000)%nat ->
  (k + Z.of_nat n - 1) * ms <= Z.min (cur + 1000 * ms) (endTime cfg) ->
  (n = 1000%nat
   \/ Z.min (cur + 1000 * ms) (endTime cfg) < (k + Z.of_nat n) * ms) ->
  exchange ms quote (batchRequest cfg cur) = Some (buckets ms quote k n).
Proof.
  intros Hms Hcfg Hcur Hn Hlow Hhigh.
  unfold exchange, batchRequest, batchSize.
  cbn [rqStartTime rqEndTime rqLimit]. rewrite Hcfg.
  rewrite (ceil_between ms cur k Hms Hcur).
  set (b := Z.min (cur + 1000 * ms) (endTime cfg)) in *.
  assert (Hcount : Z.to_nat (Z.min 1000 (b / ms - k + 1)) = n).
  { destruct Hhigh as [->|Hhigh].
    - assert (k + 999 <= b / ms) by (apply Z.div_le_lower_bound; lia). lia.
    - rewrite (floor_between ms b (k + Z.of_nat n - 1)) by lia. lia. }
  rewrite Hcount. reflexivity.
Qed.

(** C5. Against an exchange that returns every requested bucket, a window
    that holds the 2500 buckets [k], ..., [k + 2499] is fetched with exactly
    three page requests, and the rows collected are those 2500 buckets, each
    once, in ascending order of open time.  The loop ends when the cursor
    has reached [endTime] and when a page comes back empty. *)
Theorem three_pages_for_2500_buckets (ms : Z) (quote : Z -> string)
    (cfg : TimeConfig) (k : Z) (extra : nat) :
  0 < ms -> intervalMs cfg = ms ->
  (k - 1) * ms < startTime cfg <= k * ms ->
  (k + 2499) * ms <= endTime cfg < (k + 2500) * ms ->
  fetchBatches (exchange ms quote) cfg (3 + extra) [] (startTime cfg)
  = ([batchRequest cfg (startTime cfg);
      batchRequest cfg ((k + 1000) * ms);
      batchRequest cfg ((k + 2000) * ms)],
     Done (buckets ms quote k 2500))
  /\ map k0 (buckets ms quote k 2500)
     = map (fun j => (k + Z.of_nat j) * ms) (seq 0 2500)
  /\ (forall fetch fuel allData cur,
        endTime cfg <= cur ->
        fetchBatches fetch cfg fuel allData cur = ([], Done allData))
  /\ (forall fetch fuel allData cur,
        cur < endTime cfg ->
        fetch (batchRequest cfg cur) = Some [] ->
        fetchBatches fetch cfg (S fuel) allData cur
        = ([batchRequest cfg cur], Done allData)).
Proof.
  intros Hms Hcfg Hstart Hend.
  split; [|split; [apply buckets_open_times|split]].
  - assert (P1 : exchange ms quote (batchRequest cfg (startTime cfg))
                 = Some (buckets ms quote k 1000))
      by (apply exchange_page; auto; lia).
    assert (P2 : exchange ms quote (batchRequest cfg ((k + 1000) * ms))
                 = Some (buckets ms quote (k + 1000) 1000))
      by (apply exchange_page; auto; lia).
    assert (P3 : exchange ms quote (batchRequest cfg ((k + 2000) * ms))
                 = Some (buckets ms quote (k + 2000) 500))
      by (apply exchange_page; auto; lia).
    assert (N : forall first n, buckets ms quote first (S n) <> [])
      by (intros first n E; apply (f_equal (@List.length Kline)) in E;
          rewrite buckets_length in E; discriminate).
    assert (L1 : startTime cfg < endTime cfg) by lia.
    assert (L2 : (k + 1000) * ms < endTime cfg) by lia.
    assert (L3 : (k + 2000) * ms < endTime cfg) by lia.
    change (3 + extra)%nat with (S (S (S extra))).
    rewrite (fetchBatches_page _ _ _ _ _ _ L1 P1 (N k 999%nat)).
    rewrite (buckets_last ms quote k 999), Hcfg.
    replace ((k + Z.of_nat 999) * ms + ms) with ((k + 1000) * ms) by lia.
    rewrite (fetchBatches_page _ _ _ _ _ _ L2 P2 (N (k + 1000) 999%nat)).
    rewrite (buckets_last ms quote (k + 1000) 999), Hcfg.
    replace ((k + 1000 + Z.of_nat 999) * ms + ms) with ((k + 2000) * ms) by lia.
    rewrite (fetchBatches_page _ _ _ _ _ _ L3 P3 (N (k + 2000) 499%nat)).
    rewrite (buckets_last ms quote (k + 2000) 499), Hcfg.
    rewrite fetchBatches_done by lia.
    cbn [fst snd app]. f_equal. f_equal.
    change 2500%nat with (1000 + (1000 + 500))%nat.
    rewrite !buckets_app.
    replace (k + Z.of_nat 1000) with (k + 1000) by lia.
    replace (k + 1000 + Z.of_nat 1000) with (k + 2000) by lia.
    now rewrite app_assoc.
  - intros. now apply fetchBatches_done.
  - intros. now apply fetchBatches_empty_page.
Qed.

Lemma three_pages_for_2500_buckets_witness :
  let run :=
    fetchBatches (exchange 60000 (fun _ => "100.00")) wideWindow 3 []
      (startTime wideWindow) in
  List.length (fst run) = 3%nat
  /\ snd run = Done (buckets 60000 (fun _ => "100.00") 28332000 2500).
Proof.
  cbv zeta.
  destruct (three_pages_for_2500_buckets 60000 (fun _ => "100.00")
              wideWindow 28332000 0) as (T & _).
  - lia.
  - reflexivity.
  - cbn [wideWindow startTime]. lia.
  - cbn [wideWindow endTime]. lia.
  - cbn [Nat.add] in T. rewrite T. split; reflexivity.
Defined.

(** ** Switching the interval *)

Lemma Interval_eqb_neq (a b : Interval) : Interval_eqb a b = false <-> a <> b.
Proof. destruct a, b; cbn; split; congruence. Qed.

(** The page is opened on Today and the user selects 1 Week before anything
    is answered.  The previous-close request of Today is then answered: its
    close becomes the previous close although 1 Week is selected.  The
    historical fetch of Today then completes: its minute grid becomes the
    chart although 1 Week is selected.  And a previous close resolved under
    Today is still there right after the switch to 1 Week. *)
Lemma stale_responses_overwrite :
  let switched := run (H := utcHost) mount [Select I1w] in
  let baselineLate :=
    run (H := utcHost) mount
      [Select I1w; PreviousCloseSettles 0 (Some dailyRows)] in
  let seriesLate :=
    run (H := utcHost) mount
      [Select I1w; HistoricalSettles 1 now0 sampleServer 5] in
  let carried :=
    run (H := utcHost) mount
      [PreviousCloseSettles 0 (Some dailyRows); Select I1w] in
  option_map (fun st => (interval st, previousClose st, inflight st)) switched
  = Some (I1w, Null,
          [PreviousCloseFetch I1m; HistoricalFetch I1m Null;
           PreviousCloseFetch I1w; HistoricalFetch I1w Null])
  /\ option_map (fun st => (interval st, previousClose st)) baselineLate
     = Some (I1w, Num (Fin (3560000 # 100)))
  /\ option_map (fun st => (interval st, List.length (labels (chartData st))))
       seriesLate
     = Some (I1w, 1440%nat)
  /\ option_map (fun st => (interval st, previousClose st)) carried
     = Some (I1w, Num (Fin (3560000 # 100))).
Proof. vm_compute. repeat split; reflexivity. Qed.

Section Switching.
Context `{Host}.

(** C4 (amended). Selecting an interval changes the selected interval and
    nothing else of the data: the chart and the previous close stay as they
    are; when the interval differs from the current one the socket is
    replaced (one is open only for Today) and a previous-close fetch and a
    historical fetch are started for it.  A response is applied when it
    arrives, whatever interval is selected by then: a previous-close
    response whose selected close is truthy becomes the previous close, and
    a historical fetch that completes replaces the chart. *)
Theorem switch_keeps_data_and_responses_apply (st : State) :
  (forall i,
     exists st',
       step st (Select i) = Some st'
       /\ interval st' = i
       /\ chartData st' = chartData st
       /\ previousClose st' = previousClose st
       /\ (i <> interval st ->
           ws st' = match i with
                    | I1m => Some (I1m, previousClose st)
                    | _ => None
                    end
           /\ inflight st'
              = inflight st
                ++ [PreviousCloseFetch i; HistoricalFetch i (previousClose st)]))
  /\ (forall n captured data,
        nth_error (inflight st) n = Some (PreviousCloseFetch captured) ->
        toBoolean (selectPreviousClose captured data) = true ->
        exists st',
          step st (PreviousCloseSettles n (Some data)) = Some st'
          /\ interval st' = interval st
          /\ previousClose st' = selectPreviousClose captured data)
  /\ (forall n captured capturedClose now fetch fuel data,
        nth_error (inflight st) n = Some (HistoricalFetch captured capturedClose) ->
        snd (historicalRun captured now fetch fuel) = Done data ->
        exists st',
          step st (HistoricalSettles n now fetch fuel) = Some st'
          /\ interval st' = interval st
          /\ chartData st' = historicalChart captured capturedClose data).
Proof.
  split; [|split].
  - intros i. eexists. split; [reflexivity|].
    cbn [runEffects interval chartData previousClose ws inflight].
    split; [reflexivity|]. split; [reflexivity|]. split; [reflexivity|].
    intros Hne.
    assert (E : Interval_eqb (interval st) i = false)
      by (apply Interval_eqb_neq; congruence).
    rewrite E. cbn [negb orb]. split; [destruct i; reflexivity | reflexivity].
  - intros n captured data Htask Htruthy. eexists.
    cbn [step]. rewrite Htask. split; [reflexivity|].
    unfold onPreviousClose. rewrite Htruthy. split; reflexivity.
  - intros n captured capturedClose now fetch fuel data Htask Hdone. eexists.
    cbn [step]. rewrite Htask. unfold fetchHistoricalData. rewrite Hdone.
    split; [reflexivity|]. split; reflexivity.
Qed.

End Switching.

Lemma switch_keeps_data_and_responses_apply_witness :
  (exists st',
     step (H := utcHost) mount (Select I1w) = Some st'
     /\ interval st' = I1w
     /\ chartData st' = chartData mount
     /\ previousClose st' = previousClose mount)
  /\ (exists st',
        step (H := utcHost) mount
          (PreviousCloseSettles 0 (Some dailyRows)) = Some st'
        /\ interval st' = I1m
        /\ previousClose st' = Num (Fin (3560000 # 100))).
Proof.
  split.
  - destruct (switch_keeps_data_and_responses_apply (H := utcHost) mount)
      as (T & _).
    destruct (T I1w) as (st' & S1 & S2 & S3 & S4 & _).
    exists st'. repeat split; assumption.
  - destruct (switch_keeps_data_and_responses_apply (H := utcHost) mount)
      as (_ & T & _).
    apply (T 0%nat I1m dailyRows); reflexivity.
Defined.

(** * Further properties of the code *)

(** ** The batch loop against any server *)

Section AnyServer.
Variable fetch : KlineRequest -> Response.
Variable cfg : TimeConfig.

Lemma fetchBatches_unfold (fuel : nat) (allData : list Kline) (cur : Z) :
  cur < endTime cfg ->
  fetchBatches fetch cfg (S fuel) allData cur
  = match fetch (batchRequest cfg cur) with
    | None => ([batchRequest cfg cur], Thrown)
    | Some batchData =>
        if Z.of_nat (List.length batchData) =? 0
        then ([batchRequest cfg cur], Done allData)
        else
          (batchRequest cfg cur
             :: fst (fetchBatches fetch cfg fuel (allData ++ batchData)
                       (lastOpenTime batchData + intervalMs cfg)),
           snd (fetchBatches fetch cfg fuel (allData ++ batchData)
                  (lastOpenTime batchData + intervalMs cfg)))
    end.
Proof.
  intros Hlt. cbn [fetchBatches].
  replace (cur <? endTime cfg) with true by (symmetry; apply Z.ltb_lt; lia).
  destruct (fetch (batchRequest cfg cur)) as [batchData|]; [|reflexivity].
  destruct (Z.of_nat (List.length batchData) =? 0); [reflexivity|].
  destruct (fetchBatches fetch cfg fuel (allData ++ batchData)
              (lastOpenTime batchData + intervalMs cfg)).
  reflexivity.
Qed.

Lemma fetchBatches_cases (fuel : nat) (allData : list Kline) (cur : Z) :
  (endTime cfg <= cur
   /\ fetchBatches fetch cfg fuel allData cur = ([], Done allData))
  \/ (cur < endTime cfg /\ fuel = O
      /\ fetchBatches fetch cfg fuel allData cur = ([], Pending))
  \/ (cur < endTime cfg /\ exists fuel', fuel = S fuel').
Proof.
  destruct (Z.lt_ge_cases cur (endTime cfg)) as [Hlt|Hge].
  - right. destruct fuel as [|fuel'].
    + left. repeat split; auto. cbn [fetchBatches].
      replace (cur <? endTime cfg) with true
        by (symmetry; apply Z.ltb_lt; lia).
      reflexivity.
    + right. eauto.
  - left. split; [lia|]. apply fetchBatches_done. lia.
Qed.

Lemma length_zero_nil {A} (l : list A) :
  (Z.of_nat (List.length l) =? 0) = true -> l = [].
Proof.
  destruct l; [reflexivity|]. intros E. apply Z.eqb_eq in E.
  cbn [List.length] in E. lia.
Qed.

(** X1. The rows a run ends with are the rows it started with followed by
    the pages of its requests, in the order of the requests; and the run
    ends by the throw exactly when one of its requests was refused. *)
Theorem pages_concatenated_in_order (fuel : nat) (allData : list Kline)
    (cur : Z) :
  let run := fetchBatches fetch cfg fuel allData cur in
  (forall data,
     snd run = Done data ->
     data = allData ++ flat_map (fun rq => responseRows (fetch rq)) (fst run))
  /\ (snd run = Thrown <-> exists rq, In rq (fst run) /\ fetch rq = None).
Proof.
  cbv zeta. revert allData cur.
  induction fuel as [|fuel IH]; intros allData cur.
  - destruct (fetchBatches_cases 0 allData cur)
      as [[_ E]|[(_ & _ & E)|(_ & fuel' & E)]]; try discriminate;
      rewrite E; cbn [fst snd flat_map]; (split;
        [intros data [= <-]; now rewrite app_nil_r
        | split; [discriminate | intros (rq & [] & _)]]).
  - destruct (fetchBatches_cases (S fuel) allData cur)
      as [[_ E]|[(_ & E & _)|(Hlt & _)]]; try discriminate.
    + rewrite E; cbn [fst snd flat_map]. split.
      * intros data [= <-]. now rewrite app_nil_r.
      * split; [discriminate | intros (rq & [] & _)].
    + rewrite (fetchBatches_unfold fuel allData cur Hlt).
      destruct (fetch (batchRequest cfg cur)) as [batchData|] eqn:Hpage.
      * destruct (Z.of_nat (List.length batchData) =? 0) eqn:Hlen.
        -- apply length_zero_nil in Hlen. subst batchData.
           cbn [fst snd flat_map]. rewrite Hpage. cbn [responseRows app].
           split.
           ++ intros data [= <-]. now rewrite app_nil_r.
           ++ split; [discriminate|].
              intros (rq & [<-|[]] & Hnone). congruence.
        -- destruct (IH (allData ++ batchData)
                       (lastOpenTime batchData + intervalMs cfg)) as [IH1 IH2].
           cbn [fst snd flat_map]. rewrite Hpage. cbn [responseRows].
           split.
           ++ intros data Hdone. rewrite (IH1 data Hdone).
              now rewrite <- app_assoc.
           ++ rewrite IH2. split.
              ** intros (rq & Hin & Hnone). exists rq. split; [now right|auto].
              ** intros (rq & [<-|Hin] & Hnone); [congruence|eauto].
      * cbn [fst snd]. split; [discriminate|].
        split; [|reflexivity]. intros _.
        exists (batchRequest cfg cur). split; [now left | exact Hpage].
Qed.

(** X2. Every request of a run starts before [endTime], ends at most at
    [endTime] and at most a thousand buckets after its start, asks for at
    most a thousand rows and uses the granularity of the window. *)
Theorem requests_stay_in_window (fuel : nat) (allData : list Kline) (cur : Z)
    (rq : KlineRequest) :
  0 <= intervalMs cfg ->
  In rq (fst (fetchBatches fetch cfg fuel allData cur)) ->
  exists a b,
    rqStartTime rq = Some a /\ rqEndTime rq = Some b
    /\ a < endTime cfg /\ a <= b <= endTime cfg
    /\ b <= a + 1000 * intervalMs cfg
    /\ rqLimit rq = 1000
    /\ rqInterval rq = apiInterval cfg.
Proof.
  intros Hms. revert allData cur.
  assert (Hone : forall c, c < endTime cfg ->
            exists a b,
              rqStartTime (batchRequest cfg c) = Some a
              /\ rqEndTime (batchRequest cfg c) = Some b
              /\ a < endTime cfg /\ a <= b <= endTime cfg
              /\ b <= a + 1000 * intervalMs cfg
              /\ rqLimit (batchRequest cfg c) = 1000
              /\ rqInterval (batchRequest cfg c) = apiInterval cfg).
  { intros c Hc. unfold batchRequest, batchSize.
    cbn [rqStartTime rqEndTime rqLimit rqInterval].
    eexists; eexists. repeat split; try reflexivity; lia. }
  induction fuel as [|fuel IH]; intros allData cur Hin.
  - destruct (fetchBatches_cases 0 allData cur)
      as [[_ E]|[(_ & _ & E)|(_ & fuel' & E)]]; try discriminate;
      rewrite E in Hin; destruct Hin.
  - destruct (fetchBatches_cases (S fuel) allData cur)
      as [[_ E]|[(_ & E & _)|(Hlt & _)]]; try discriminate.
    + rewrite E in Hin. destruct Hin.
    + rewrite (fetchBatches_unfold fuel allData cur Hlt) in Hin.
      destruct (fetch (batchRequest cfg cur)) as [batchData|].
      * destruct (Z.of_nat (List.length batchData) =? 0).
        -- destruct Hin as [<-|[]]. now apply Hone.
        -- destruct Hin as [<-|Hin]; [now apply Hone | eapply IH; eauto].
      * destruct Hin as [<-|[]]. now apply Hone.
Qed.

End AnyServer.

Lemma requests_stay_in_window_witness :
  let cfg := getTimeConfig (H := utcHost) I1m now0 in
  exists a b,
    rqStartTime (batchRequest cfg 1700000160000) = Some a
    /\ rqEndTime (batchRequest cfg 1700000160000) = Some b
    /\ a < endTime cfg /\ a <= b <= endTime cfg
    /\ b <= a + 1000 * intervalMs cfg
    /\ rqLimit (batchRequest cfg 1700000160000) = 1000
    /\ rqInterval (batchRequest cfg 1700000160000) = apiInterval cfg.
Proof.
  cbv zeta.
  apply (requests_stay_in_window sampleServer
           (getTimeConfig (H := utcHost) I1m now0) 5 []
           (startTime (getTimeConfig (H := utcHost) I1m now0))).
  - vm_compute. discriminate.
  - vm_compute. right. left. reflexivity.
Defined.

Lemma pages_concatenated_in_order_witness :
  let run :=
    fetchBatches sampleServer (getTimeConfig (H := utcHost) I1m now0) 5 []
      (startTime (getTimeConfig (H := utcHost) I1m now0)) in
  sampleCandles
  = [] ++ flat_map (fun rq => responseRows (sampleServer rq)) (fst run).
Proof.
  cbv zeta.
  apply (pages_concatenated_in_order sampleServer
           (getTimeConfig (H := utcHost) I1m now0) 5 []
           (startTime (getTimeConfig (H := utcHost) I1m now0))).
  vm_compute. reflexivity.
Defined.

(** ** Order of the rows *)

Lemma ascending_Sorted (l : list Z) :
  ascending l = true -> StronglySorted Z.lt l.
Proof.
  intros Hasc. apply Sorted_StronglySorted; [exact Z.lt_strorder.(StrictOrder_Transitive)|].
  induction l as [|x [|y l] IH].
  - constructor.
  - repeat constructor.
  - cbn [ascending] in Hasc. apply andb_true_iff in Hasc.
    destruct Hasc as [Hxy Hrest]. apply Z.ltb_lt in Hxy.
    constructor; [now apply IH | now constructor].
Qed.

Lemma StronglySorted_app (l1 l2 : list Z) :
  StronglySorted Z.lt l1 -> StronglySorted Z.lt l2 ->
  (forall x y, In x l1 -> In y l2 -> x < y) ->
  StronglySorted Z.lt (l1 ++ l2).
Proof.
  intros H1 H2 Hlt. induction H1 as [|x l1 Hs IH Hx]; [exact H2|].
  cbn [app]. constructor.
  - apply IH. intros a b Ha Hb. apply Hlt; [now right | exact Hb].
  - apply Forall_app. split; [exact Hx|].
    apply Forall_forall. intros y Hy. apply Hlt; [now left | exact Hy].
Qed.

Lemma StronglySorted_last_max (l : list Z) (d x : Z) :
  StronglySorted Z.lt l -> In x l -> x <= last l d.
Proof.
  intros Hs. revert x. induction Hs as [|y l Hs IH Hy]; intros x Hin.
  - destruct Hin.
  - destruct l as [|z l'].
    + destruct Hin as [<-|[]]. cbn. lia.
    + change (last (y :: z :: l') d) with (last (z :: l') d).
      destruct Hin as [<-|Hin]; [|now apply IH].
      rewrite Forall_forall in Hy.
      specialize (IH z (or_introl eq_refl)).
      specialize (Hy z (or_introl eq_refl)). lia.
Qed.

Lemma lastOpenTime_map (batchData : list Kline) :
  lastOpenTime batchData = last (map k0 batchData) 0.
Proof.
  unfold lastOpenTime.
  induction batchData as [|x [|y l] IH]; try reflexivity.
  change (last (x :: y :: l) {| k0 := 0; k4 := "" |})
    with (last (y :: l) {| k0 := 0; k4 := "" |}).
  rewrite IH. reflexivity.
Qed.

Section OrderedServer.
Variable fetch : KlineRequest -> Response.
Variable cfg : TimeConfig.
Hypothesis granularity_positive : 0 < intervalMs cfg.

Lemma fetchBatches_ascending (fuel : nat) :
  forall allData cur data,
    StronglySorted Z.lt (map k0 allData) ->
    (forall k, In k allData -> k0 k < cur) ->
    forallb (fun rq => pageInOrder rq (fetch rq))
      (fst (fetchBatches fetch cfg fuel allData cur)) = true ->
    snd (fetchBatches fetch cfg fuel allData cur) = Done data ->
    StronglySorted Z.lt (map k0 data).
Proof.
  induction fuel as [|fuel IH]; intros allData cur data Hsorted Hbelow Hpages.
  - destruct (fetchBatches_cases fetch cfg 0 allData cur)
      as [[_ E]|[(_ & _ & E)|(_ & fuel' & E)]]; try discriminate;
      rewrite E; cbn [snd]; intros [= <-]; exact Hsorted.
  - destruct (fetchBatches_cases fetch cfg (S fuel) allData cur)
      as [[_ E]|[(_ & E & _)|(Hlt & _)]]; try discriminate.
    + rewrite E; cbn [snd]; intros [= <-]; exact Hsorted.
    + rewrite (fetchBatches_unfold fetch cfg fuel allData cur Hlt) in *.
      destruct (fetch (batchRequest cfg cur)) as [batchData|] eqn:Hpage;
        [|discriminate].
      destruct (Z.of_nat (List.length batchData) =? 0) eqn:Hlen;
        [cbn [snd]; intros [= <-]; exact Hsorted|].
      cbn [fst snd forallb] in *.
      apply andb_true_iff in Hpages. destruct Hpages as [Hpage1 Hrest].
      unfold pageInOrder in Hpage1. rewrite Hpage in Hpage1.
      cbn [batchRequest rqStartTime responseRows] in Hpage1.
      apply andb_true_iff in Hpage1. destruct Hpage1 as [Hasc Hlow].
      apply ascending_Sorted in Hasc.
      rewrite forallb_forall in Hlow.
      apply IH; [| |exact Hrest].
      * rewrite map_app. apply StronglySorted_app; auto.
        intros x y Hx Hy.
        apply in_map_iff in Hx. destruct Hx as (kx & <- & Hkx).
        apply in_map_iff in Hy. destruct Hy as (ky & <- & Hky).
        specialize (Hbelow kx Hkx). specialize (Hlow ky Hky).
        apply Z.leb_le in Hlow. lia.
      * intros k Hk. rewrite lastOpenTime_map.
        apply in_app_or in Hk. destruct Hk as [Hk|Hk].
        -- specialize (Hbelow k Hk).
           destruct batchData as [|b batchData'];
             [cbn in Hlen; discriminate|].
           pose proof (StronglySorted_last_max _ 0 (k0 b) Hasc (in_eq _ _))
             as Hmax.
           specialize (Hlow b (in_eq _ _)). apply Z.leb_le in Hlow. lia.
        -- pose proof (StronglySorted_last_max _ 0 (k0 k) Hasc
                         (in_map k0 _ _ Hk)) as Hmax. lia.
Qed.

(** X3. When every page of a run is in order (its open times ascend and
    none lies before the start asked for), the rows the run ends with
    ascend strictly by open time: no bucket is collected twice. *)
Theorem collected_rows_ascend (fuel : nat) (data : list Kline) :
  forallb (fun rq => pageInOrder rq (fetch rq))
    (fst (fetchBatches fetch cfg fuel [] (startTime cfg))) = true ->
  snd (fetchBatches fetch cfg fuel [] (startTime cfg)) = Done data ->
  StronglySorted Z.lt (map k0 data) /\ NoDup (map k0 data).
Proof.
  intros Hpages Hdone.
  assert (Hs : StronglySorted Z.lt (map k0 data)).
  { eapply fetchBatches_ascending; eauto.
    - constructor.
    - intros k []. }
  split; [exact Hs|].
  clear - Hs. induction Hs as [|x l Hs IH Hx]; constructor; auto.
  intros Hin. rewrite Forall_forall in Hx. specialize (Hx x Hin). lia.
Qed.

(** The server never answers with rows older than the start asked for. *)
Hypothesis rows_not_before_start :
  forall cur batchData,
    cur < endTime cfg ->
    fetch (batchRequest cfg cur) = Some batchData ->
    batchData <> [] ->
    cur <= lastOpenTime batchData.

Lemma fetchBatches_settles (fuel : nat) :
  forall allData cur,
    endTime cfg - cur <= intervalMs cfg * Z.of_nat fuel ->
    snd (fetchBatches fetch cfg fuel allData cur) <> Pending.
Proof.
  induction fuel as [|fuel IH]; intros allData cur Hfuel.
  - rewrite fetchBatches_done by lia. discriminate.
  - destruct (fetchBatches_cases fetch cfg (S fuel) allData cur)
      as [[_ E]|[(_ & E & _)|(Hlt & _)]]; try discriminate.
    + rewrite E. discriminate.
    + rewrite (fetchBatches_unfold fetch cfg fuel allData cur Hlt).
      destruct (fetch (batchRequest cfg cur)) as [batchData|] eqn:Hpage;
        [|discriminate].
      destruct (Z.of_nat (List.length batchData) =? 0) eqn:Hlen;
        [discriminate|].
      cbn [snd]. apply IH.
      assert (Hne : batchData <> [])
        by (intros ->; cbn in Hlen; discriminate).
      pose proof (rows_not_before_start cur batchData Hlt Hpage Hne). lia.
Qed.

(** X4. Against a server that never answers with rows older than the start
    asked for, the loop ends, normally or by a throw, within one iteration
    per bucket of the window plus one. *)
Theorem fetch_loop_terminates :
  let fuel :=
    Z.to_nat ((endTime cfg - startTime cfg) / intervalMs cfg + 1) in
  snd (fetchBatches fetch cfg fuel [] (startTime cfg)) <> Pending
  /\ (List.length (fst (fetchBatches fetch cfg fuel [] (startTime cfg)))
      <= fuel)%nat.
Proof.
  cbv zeta. split.
  - apply fetchBatches_settles.
    set (w := endTime cfg - startTime cfg).
    destruct (Z.lt_ge_cases w 0) as [Hneg|Hpos].
    + assert (0 <= intervalMs cfg * Z.of_nat (Z.to_nat (w / intervalMs cfg + 1)))
        by (apply Z.mul_nonneg_nonneg; lia).
      lia.
    + assert (0 <= w / intervalMs cfg) by (apply Z.div_pos; lia).
      rewrite Z2Nat.id by lia.
      pose proof (Z.mul_succ_div_gt w (intervalMs cfg) granularity_positive).
      lia.
  - generalize (Z.to_nat ((endTime cfg - startTime cfg) / intervalMs cfg + 1)).
    generalize (startTime cfg). generalize (@nil Kline).
    intros allData cur fuel. revert allData cur.
    induction fuel as [|fuel IH]; intros allData cur.
    + destruct (fetchBatches_cases fetch cfg 0 allData cur)
        as [[_ E]|[(_ & _ & E)|(_ & fuel' & E)]]; try discriminate;
        rewrite E; cbn; lia.
    + destruct (fetchBatches_cases fetch cfg (S fuel) allData cur)
        as [[_ E]|[(_ & E & _)|(Hlt & _)]]; try discriminate.
      * rewrite E; cbn; lia.
      * rewrite (fetchBatches_unfold fetch cfg fuel allData cur Hlt).
        destruct (fetch (batchRequest cfg cur)) as [batchData|];
          [|cbn; lia].
        destruct (Z.of_nat (List.length batchData) =? 0); [cbn; lia|].
        cbn [fst List.length].
        specialize (IH (allData ++ batchData)
                       (lastOpenTime batchData + intervalMs cfg)). lia.
Qed.

End OrderedServer.

Lemma collected_rows_ascend_witness :
  StronglySorted Z.lt
    (map k0 (buckets 60000 (fun _ => "100.00") 28332000 2500))
  /\ NoDup (map k0 (buckets 60000 (fun _ => "100.00") 28332000 2500)).
Proof.
  apply (collected_rows_ascend (exchange 60000 (fun _ => "100.00"))
           wideWindow ltac:(reflexivity) 3).
  - vm_compute. reflexivity.
  - vm_compute. reflexivity.
Defined.

Lemma sampleServer_rows (rq : KlineRequest) (rows : list Kline) :
  sampleServer rq = Some rows -> rows <> [] ->
  exists a,
    rqStartTime rq = Some a /\ a <= 1700000040000 /\ rows = sampleCandles.
Proof.
  unfold sampleServer.
  destruct (rqStartTime rq) as [a|]; [|intros [= <-]; congruence].
  destruct (Z.leb_spec a 1700000040000); intros [= <-]; [|congruence].
  intros _. exists a. auto.
Qed.

Lemma fetch_loop_terminates_witness :
  let cfg := getTimeConfig (H := utcHost) I1m now0 in
  let fuel :=
    Z.to_nat ((endTime cfg - startTime cfg) / intervalMs cfg + 1) in
  snd (fetchBatches sampleServer cfg fuel [] (startTime cfg)) <> Pending
  /\ (List.length (fst (fetchBatches sampleServer cfg fuel []
                          (startTime cfg))) <= fuel)%nat.
Proof.
  intros cfg.
  apply (fetch_loop_terminates sampleServer
           (getTimeConfig (H := utcHost) I1m now0) ltac:(reflexivity)).
  intros cur batchData _ Hpage Hne.
  destruct (sampleServer_rows _ _ Hpage Hne) as (a & Ha & Hle & ->).
  injection Ha as <-.
  change (lastOpenTime sampleCandles) with 1700000100000. lia.
Defined.

(** ** Writes into the price array *)

Lemma set_nat_twice (l : list value) (n : nat) (v1 v2 : value) :
  set_nat (set_nat l n v1) n v2 = set_nat l n v2.
Proof.
  revert l; induction n as [|n IH]; intros [|x l]; cbn [set_nat];
    try reflexivity; f_equal; apply IH.
Qed.

Lemma set_nat_same_length (l : list value) (n : nat) (v : value) :
  (n < List.length l)%nat -> List.length (set_nat l n v) = List.length l.
Proof.
  revert l; induction n as [|n IH]; intros [|x l] Hn; cbn in *; try lia.
  rewrite IH; lia.
Qed.

Lemma set_nat_other (l : list value) (n m : nat) (v : value) :
  m <> n -> nth m (set_nat l n v) Undefined = nth m l Undefined.
Proof.
  revert l m; induction n as [|n IH]; intros [|x l] [|m] Hne;
    cbn [set_nat nth]; try reflexivity; try congruence.
  - destruct m; reflexivity.
  - rewrite IH by congruence. destruct m; reflexivity.
  - apply IH. congruence.
Qed.

Lemma indexOf_from_below (l : list string) (x : string) (i : Z) :
  0 <= i -> indexOf_from i l x < i + Z.of_nat (List.length l).
Proof.
  revert i; induction l as [|y l IH]; intros i Hi;
    cbn [indexOf_from List.length].
  - lia.
  - destruct (String.eqb y x); [lia|]. specialize (IH (i + 1)). lia.
Qed.

Lemma indexOf_in_range (l : list string) (x : string) :
  In x l -> 0 <= indexOf l x < Z.of_nat (List.length l).
Proof.
  intros Hin. split; [now apply indexOf_present|].
  apply (indexOf_from_below l x 0). lia.
Qed.

(** ** Merging stream updates *)

(** X5. Two updates of the same bucket leave what the second alone leaves:
    the last write of a slot wins, with its styling, and applying an update
    twice is applying it once. *)
Theorem last_update_of_a_slot_wins
    (interval1 interval2 : Interval) (previousClose1 previousClose2 : value)
    (close1 close2 : value) (timestamp : string) (prev : ChartData) :
  mergeUpdate interval2 previousClose2 close2 timestamp
    (mergeUpdate interval1 previousClose1 close1 timestamp prev)
  = mergeUpdate interval2 previousClose2 close2 timestamp prev
  /\ mergeUpdate interval1 previousClose1 close1 timestamp
       (mergeUpdate interval1 previousClose1 close1 timestamp prev)
     = mergeUpdate interval1 previousClose1 close1 timestamp prev.
Proof.
  assert (G : forall i1 i2 p1 p2 c1 c2,
             mergeUpdate i2 p2 c2 timestamp (mergeUpdate i1 p1 c1 timestamp prev)
             = mergeUpdate i2 p2 c2 timestamp prev).
  { intros i1 i2 p1 p2 c1 c2. unfold mergeUpdate.
    destruct (indexOf (labels prev) timestamp =? -1) eqn:E; [now rewrite E|].
    cbn [labels prices data spanGaps]. rewrite E.
    assert (Hpos : 0 <= indexOf (labels prev) timestamp).
    { apply Z.eqb_neq in E.
      destruct (indexOf_from_range (labels prev) timestamp 0) as [F|F];
        [lia | unfold indexOf in E; congruence | exact F]. }
    unfold set.
    replace (indexOf (labels prev) timestamp <? 0) with false
      by (symmetry; apply Z.ltb_ge; lia).
    rewrite set_nat_twice. reflexivity. }
  split; apply G.
Qed.

(** X6. An update that finds its slot in a chart whose prices are as many
    as its labels keeps the labels and the number of prices, puts its close
    into the slot and leaves every other price as it was. *)
Theorem merge_writes_one_slot
    (interval : Interval) (previousClose closePrice : value)
    (timestamp : string) (prev : ChartData) :
  In timestamp (labels prev) ->
  List.length (data (prices prev)) = List.length (labels prev) ->
  let timeIndex := indexOf (labels prev) timestamp in
  let next := mergeUpdate interval previousClose closePrice timestamp prev in
  labels next = labels prev
  /\ List.length (data (prices next)) = List.length (data (prices prev))
  /\ get (data (prices next)) timeIndex = closePrice
  /\ (forall j, j <> timeIndex ->
        get (data (prices next)) j = get (data (prices prev)) j).
Proof.
  intros Hin Hlen. cbv zeta.
  rewrite (mergeUpdate_matched _ _ _ _ _ Hin). cbn [labels prices data].
  pose proof (indexOf_in_range _ _ Hin) as Hr.
  set (timeIndex := indexOf (labels prev) timestamp) in *.
  split; [reflexivity|]. split; [|split].
  - unfold set.
    replace (timeIndex <? 0) with false by (symmetry; apply Z.ltb_ge; lia).
    apply set_nat_same_length. lia.
  - apply get_set. lia.
  - intros j Hj. unfold get, set.
    replace (timeIndex <? 0) with false by (symmetry; apply Z.ltb_ge; lia).
    destruct (j <? 0) eqn:Ej; [reflexivity|].
    apply Z.ltb_ge in Ej. apply set_nat_other. lia.
Qed.

Lemma merge_writes_one_slot_witness :
  let next :=
    mergeUpdate I1m (Num (Fin 100)) (Num (Fin 105)) "00:01" twoSlotChart in
  labels next = ["00:00"; "00:01"]
  /\ List.length (data (prices next)) = 2%nat
  /\ get (data (prices next)) 1 = Num (Fin 105)
  /\ (forall j, j <> 1 ->
        get (data (prices next)) j = get [Num (Fin 100); Null] j).
Proof.
  apply (merge_writes_one_slot I1m (Num (Fin 100)) (Num (Fin 105)) "00:01"
           twoSlotChart).
  - simpl. auto.
  - reflexivity.
Defined.

(** ** Stream updates on the Today grid *)

Lemma grid_slot_check :
  forallb (fun i =>
             indexOf minuteGrid
               (pad2 (Z.of_nat (i / 60)) ++ ":"
                ++ pad2 (Z.of_nat (i mod 60)))%string
             =? Z.of_nat i) (seq 0 1440) = true.
Proof. vm_compute. reflexivity. Qed.

Lemma grid_slot (h m : Z) :
  0 <= h < 24 -> 0 <= m < 60 ->
  indexOf minuteGrid (pad2 h ++ ":" ++ pad2 m)%string = 60 * h + m.
Proof.
  intros Hh Hm.
  pose proof grid_slot_check as Hall. rewrite forallb_forall in Hall.
  specialize (Hall (Z.to_nat (60 * h + m))).
  assert (Hin : In (Z.to_nat (60 * h + m)) (seq 0 1440))
    by (apply in_seq; lia).
  specialize (Hall Hin). apply Z.eqb_eq in Hall.
  assert (E1 : Z.of_nat (Z.to_nat (60 * h + m) / 60) = h).
  { rewrite Nat2Z.inj_div, Z2Nat.id by lia. change (Z.of_nat 60) with 60.
    symmetry. apply (Z.div_unique (60 * h + m) 60 h m); lia. }
  assert (E2 : Z.of_nat (Z.to_nat (60 * h + m) mod 60) = m).
  { rewrite Nat2Z.inj_mod, Z2Nat.id by lia. change (Z.of_nat 60) with 60.
    symmetry. apply (Z.mod_unique (60 * h + m) 60 h m); lia. }
  rewrite E1, E2, Z2Nat.id in Hall by lia. exact Hall.
Qed.

Lemma historicalChart_today_labels `{Host} (previousClose : value)
    (data : list Kline) :
  labels (historicalChart I1m previousClose data) = minuteGrid.
Proof.
  unfold historicalChart. cbn [buildSeries].
  pose proof (todayLabels_grid data) as Hl.
  destruct (todaySeries data) as [ls ps]. cbn [fst] in Hl.
  cbn [labels]. exact Hl.
Qed.

(** X7. On a chart of Today, whatever candles it was built from, a stream
    update of a bucket opened at a valid time value [t] finds its slot: the
    slot is 60 * hour + minute of the local time of [t], and the price
    array after the merge is the array with the close written there.  No
    such update is dropped once the grid is loaded. *)
Theorem today_update_finds_its_slot `{Host} (previousClose : value)
    (candles : list Kline) (t : Z) :
  validTime t ->
  let chart := historicalChart I1m previousClose candles in
  let slot := 60 * getHours t + getMinutes t in
  0 <= slot < 1440
  /\ indexOf (labels chart) (timestampOf t) = slot
  /\ In (timestampOf t) (labels chart)
  /\ (forall interval captured closePrice,
        data (prices (mergeUpdate interval captured closePrice
                        (timestampOf t) chart))
        = set (data (prices chart)) slot closePrice).
Proof.
  intros _. cbv zeta.
  assert (Hh : 0 <= getHours t < 24)
    by (unfold getHours; apply Z.mod_pos_bound; lia).
  assert (Hm : 0 <= getMinutes t < 60)
    by (unfold getMinutes; apply Z.mod_pos_bound; lia).
  assert (Hidx : indexOf (labels (historicalChart I1m previousClose candles))
                   (timestampOf t) = 60 * getHours t + getMinutes t).
  { rewrite historicalChart_today_labels. unfold timestampOf.
    now apply grid_slot. }
  assert (Hin : In (timestampOf t)
                  (labels (historicalChart I1m previousClose candles))).
  { destruct (in_dec string_dec (timestampOf t)
                (labels (historicalChart I1m previousClose candles)))
      as [Hin|Hno]; [exact Hin|].
    apply indexOf_absent in Hno. lia. }
  split; [lia|]. split; [exact Hidx|]. split; [exact Hin|].
  intros interval captured closePrice.
  rewrite (mergeUpdate_matched _ _ _ _ _ Hin). cbn [prices data].
  now rewrite Hidx.
Qed.

Lemma today_update_finds_its_slot_witness :
  let chart := historicalChart (H := utcHost) I1m Null sampleCandles in
  indexOf (labels chart) (timestampOf (H := utcHost) (t sampleMessage)) = 1335
  /\ In (timestampOf (H := utcHost) (t sampleMessage)) (labels chart).
Proof.
  cbv zeta.
  destruct (today_update_finds_its_slot (H := utcHost) Null sampleCandles
              (t sampleMessage)) as (_ & T1 & T2 & _).
  - unfold validTime. cbn [t sampleMessage]. lia.
  - split; [exact T1 | exact T2].
Defined.

(** ** Series without prices, series of candles *)

Lemma findLastIndex_from_all_null (l : list value) (i : Z) :
  forallb (fun v => negb (notNull v)) l = true ->
  findLastIndex_from i notNull l = -1 /\ filter notNull l = [].
Proof.
  revert i; induction l as [|x l IH]; intros i Hall; [split; reflexivity|].
  cbn [forallb] in Hall. apply andb_true_iff in Hall.
  destruct Hall as [Hx Hl]. apply negb_true_iff in Hx.
  destruct (IH (i + 1) Hl) as [E F].
  cbn [findLastIndex_from filter]. rewrite E, F, Hx. split; reflexivity.
Qed.

(** X8. A series that holds no price at all, as the one of Today before
    its first candle, has no marker at any index and a gray line, whatever
    the previous close. *)
Theorem empty_series_has_no_marker (series : list value)
    (previousClose : value) (dataIndex : Z) :
  forallb (fun v => negb (notNull v)) series = true ->
  0 <= dataIndex ->
  initialPointRadius series dataIndex = 0
  /\ initialPointBackgroundColor series previousClose dataIndex = TRANSPARENT
  /\ initialPointBorderColor series dataIndex = TRANSPARENT
  /\ initialBorderColor series previousClose = GRAY.
Proof.
  intros Hall Hpos.
  destruct (findLastIndex_from_all_null series 0 Hall) as [E F].
  unfold initialPointRadius, initialPointBackgroundColor,
    initialPointBorderColor, initialBorderColor, lastNonNull, findLastIndex.
  rewrite E, F.
  replace (dataIndex =? -1) with false by (symmetry; apply Z.eqb_neq; lia).
  repeat split; reflexivity.
Qed.

Lemma empty_series_has_no_marker_witness :
  initialPointRadius (snd (buildSeries (H := utcHost) I1m [])) 1439 = 0
  /\ initialPointBackgroundColor (snd (buildSeries (H := utcHost) I1m []))
       (Num (Fin 100)) 1439 = TRANSPARENT
  /\ initialPointBorderColor (snd (buildSeries (H := utcHost) I1m [])) 1439
     = TRANSPARENT
  /\ initialBorderColor (snd (buildSeries (H := utcHost) I1m []))
       (Num (Fin 100)) = GRAY.
Proof.
  apply (empty_series_has_no_marker
           (snd (buildSeries (H := utcHost) I1m [])) (Num (Fin 100)) 1439).
  - vm_compute. reflexivity.
  - lia.
Defined.

Lemma findLastIndex_from_numbers (l : list number) (i : Z) :
  0 <= i -> l <> [] ->
  findLastIndex_from i notNull (map Num l) = i + Z.of_nat (List.length l) - 1.
Proof.
  revert i; induction l as [|x l IH]; intros i Hi Hne; [congruence|].
  cbn [map findLastIndex_from List.length notNull].
  destruct l as [|y l].
  - cbn. lia.
  - rewrite IH by (lia || discriminate).
    replace (0 <=? i + 1 + Z.of_nat (List.length (y :: l)) - 1) with true
      by (symmetry; apply Z.leb_le; lia).
    lia.
Qed.

Lemma filter_numbers (l : list number) :
  filter notNull (map Num l) = map Num l.
Proof.
  induction l as [|x l IH]; [reflexivity|].
  cbn [map filter notNull]. now rewrite IH.
Qed.

(** X9. For every interval other than Today the series has one label and
    one price per candle, in the order of the candles; with at least one
    candle the marker sits on the last candle and the line colour is
    decided by the close of the last candle. *)
Theorem candle_series_marks_last_candle `{Host} (interval : Interval)
    (candles : list Kline) (previousClose : value) :
  interval <> I1m ->
  let series := buildSeries interval candles in
  fst series = map (fun kline => klineLabel interval (k0 kline)) candles
  /\ snd series = map (fun kline => Num (parseFloat (k4 kline))) candles
  /\ (candles <> [] ->
      lastNonNull (snd series) = Z.of_nat (List.length candles) - 1
      /\ pop (filter notNull (snd series))
         = Num (parseFloat (k4 (last candles {| k0 := 0; k4 := "" |})))).
Proof.
  intros Hi. cbv zeta.
  assert (Hs : buildSeries interval candles
               = (map (fun kline => klineLabel interval (k0 kline)) candles,
                  map (fun kline => Num (parseFloat (k4 kline))) candles)).
  { assert (Hc : candleSeries interval candles
                 = (map (fun kline => klineLabel interval (k0 kline)) candles,
                    map (fun kline => Num (parseFloat (k4 kline))) candles))
      by (unfold candleSeries;
          now rewrite (fold_push2_map
                         (fun kline => klineLabel interval (k0 kline))
                         (fun kline => Num (parseFloat (k4 kline))))).
    destruct interval; try exact Hc. congruence. }
  rewrite Hs. cbn [fst snd]. split; [reflexivity|]. split; [reflexivity|].
  intros Hne.
  rewrite <- (map_map (fun kline => parseFloat (k4 kline)) Num).
  split.
  - unfold lastNonNull, findLastIndex.
    rewrite findLastIndex_from_numbers, length_map;
      [lia | lia | destruct candles; [congruence | discriminate]].
  - rewrite filter_numbers. unfold pop. rewrite map_map.
    clear - Hne. induction candles as [|x [|y l] IH]; try congruence.
    + reflexivity.
    + change (last (map (fun k => Num (parseFloat (k4 k))) (x :: y :: l))
                Undefined)
        with (last (map (fun k => Num (parseFloat (k4 k))) (y :: l))
                Undefined).
      rewrite IH by discriminate. reflexivity.
Qed.

Lemma candle_series_marks_last_candle_witness :
  let series := buildSeries (H := utcHost) I1w hourlyRows in
  fst series = ["11/07 22:00"; "11/07 23:00"; "11/08 00:00"]
  /\ lastNonNull (snd series) = 2
  /\ pop (filter notNull (snd series)) = Num (Fin (3528075 # 100)).
Proof.
  cbv zeta.
  destruct (candle_series_marks_last_candle (H := utcHost) I1w hourlyRows
              Null ltac:(discriminate)) as (T1 & _ & T3).
  destruct T3 as (T3 & T4); [discriminate|].
  split; [exact T1|]. split; [exact T3 | exact T4].
Defined.

(** ** Marker and line on the initial path *)

Lemma last_in {A} (l : list A) (d : A) : l <> [] -> In (last l d) l.
Proof.
  induction l as [|x [|y l] IH]; intros Hne; [congruence | now left |].
  right. apply IH. discriminate.
Qed.

Lemma lastNonNull_notNull (series : list value) :
  0 <= lastNonNull series ->
  notNull (get series (lastNonNull series)) = true.
Proof.
  intros Hpos. rewrite <- (pop_filter_lastNonNull series Hpos).
  unfold lastNonNull, findLastIndex in Hpos.
  destruct (findLastIndex_from_spec series 0) as [[E _]|(_ & _ & Hne & _)];
    [lia | lia |].
  pose proof (last_in (filter notNull series) Undefined Hne) as Hin.
  apply filter_In in Hin. exact (proj2 Hin).
Qed.

(** X10. On the initial path the marker of the last price has the colour
    of the line whenever that price is a non-zero number or the previous
    close is missing; every other index is transparent. *)
Theorem initial_marker_matches_line (series : list value)
    (previousClose : value) :
  0 <= lastNonNull series ->
  (toBoolean (get series (lastNonNull series)) = true
   \/ previousClose = Null) ->
  initialPointBackgroundColor series previousClose (lastNonNull series)
  = initialBorderColor series previousClose
  /\ (forall dataIndex,
        dataIndex <> lastNonNull series ->
        initialPointBackgroundColor series previousClose dataIndex
        = TRANSPARENT).
Proof.
  intros Hpos Hcase. split.
  - unfold initialPointBackgroundColor, initialBorderColor.
    rewrite Z.eqb_refl, (lastNonNull_notNull series Hpos),
      (pop_filter_lastNonNull series Hpos).
    pose proof (lastNonNull_in_range series Hpos) as Hr.
    replace (0 <? Z.of_nat (List.length series)) with true
      by (symmetry; apply Z.ltb_lt; lia).
    cbn [andb].
    destruct Hcase as [Htruthy| ->].
    + rewrite Htruthy. reflexivity.
    + cbn [notNull]. rewrite andb_false_r. reflexivity.
  - intros dataIndex Hne. unfold initialPointBackgroundColor.
    replace (dataIndex =? lastNonNull series) with false
      by (symmetry; apply Z.eqb_neq; exact Hne).
    reflexivity.
Qed.

Lemma initial_marker_matches_line_witness :
  initialPointBackgroundColor [Null; Num (Fin 105); Null] (Num (Fin 100))
    (lastNonNull [Null; Num (Fin 105); Null])
  = initialBorderColor [Null; Num (Fin 105); Null] (Num (Fin 100))
  /\ (forall dataIndex,
        dataIndex <> lastNonNull [Null; Num (Fin 105); Null] ->
        initialPointBackgroundColor [Null; Num (Fin 105); Null]
          (Num (Fin 100)) dataIndex = TRANSPARENT).
Proof.
  apply (initial_marker_matches_line [Null; Num (Fin 105); Null]
           (Num (Fin 100))).
  - vm_compute. discriminate.
  - left. reflexivity.
Defined.

(** ** What every state of the component keeps *)

Lemma referenceLine_length (interval : Interval) (previousClose : value)
    (n : nat) (line : ReferenceLine) :
  referenceLine interval previousClose n = Some line ->
  List.length (refData line) = n.
Proof.
  unfold referenceLine. destruct (notNull previousClose); [|discriminate].
  intros [= <-]. cbn [refData]. apply repeat_length.
Qed.

Lemma historicalChart_aligned `{Host} (interval : Interval)
    (previousClose : value) (candles : list Kline) :
  aligned (historicalChart interval previousClose candles).
Proof.
  unfold historicalChart.
  pose proof (buildSeries_lengths interval candles) as Hl.
  destruct (buildSeries interval candles) as [ls ps]. cbn [fst snd] in Hl.
  split; cbn [labels prices data initialDataset reference].
  - now symmetry.
  - intros line. apply referenceLine_length.
Qed.

Lemma mergeUpdate_aligned (interval : Interval)
    (previousClose closePrice : value) (timestamp : string)
    (prev : ChartData) :
  aligned prev ->
  aligned (mergeUpdate interval previousClose closePrice timestamp prev).
Proof.
  intros [Hd Hr].
  destruct (in_dec string_dec timestamp (labels prev)) as [Hin|Hno].
  - rewrite (mergeUpdate_matched _ _ _ _ _ Hin).
    pose proof (indexOf_in_range _ _ Hin) as Hi.
    split; cbn [labels prices data reference].
    + unfold set.
      replace (indexOf (labels prev) timestamp <? 0) with false
        by (symmetry; apply Z.ltb_ge; lia).
      rewrite set_nat_same_length; [exact Hd | lia].
    + intros line. apply referenceLine_length.
  - rewrite (mergeUpdate_unmatched _ _ _ _ _ Hno). now split.
Qed.

Lemma sameValue_refl (v : value) : sameValue v v = true.
Proof.
  destruct v as [| |[|q]]; cbn; try reflexivity.
  apply Qeq_bool_iff. reflexivity.
Qed.

Lemma sameValue_trans (a b c : value) :
  sameValue a b = true -> sameValue b c = true -> sameValue a c = true.
Proof.
  destruct a as [| |[|x]], b as [| |[|y]], c as [| |[|z]]; cbn;
    try discriminate; try reflexivity.
  rewrite !Qeq_bool_iff. intros E1 E2. now rewrite E1.
Qed.

Lemma runEffects_socket (old new : State) :
  interval new = interval old -> ws new = ws old ->
  socketTracksState old ->
  socketTracksState (runEffects old new).
Proof.
  intros Hi Hw Hold.
  unfold socketTracksState, runEffects in *. cbn [ws interval previousClose].
  rewrite Hi.
  replace (Interval_eqb (interval old) (interval old)) with true
    by (symmetry; destruct (interval old); reflexivity).
  cbn [negb orb].
  destruct (sameValue (previousClose old) (previousClose new)) eqn:E;
    cbn [negb].
  - rewrite Hw. destruct (ws old) as [[captured capturedClose]|]; [|exact Hold].
    destruct Hold as (H1 & H2 & H3). repeat split; auto.
    eapply sameValue_trans; eauto.
  - destruct (interval old) eqn:Ei; try discriminate.
    repeat split; auto. apply sameValue_refl.
Qed.

Lemma select_socket (st : State) (i : Interval) :
  socketTracksState st ->
  socketTracksState
    (runEffects st
       {| interval := i; currentPrice := currentPrice st;
          chartData := chartData st; yesterdayClose := yesterdayClose st;
          previousClose := previousClose st; ws := ws st;
          inflight := inflight st |}).
Proof.
  intros Hold. unfold socketTracksState, runEffects in *.
  cbn [ws interval previousClose].
  rewrite sameValue_refl. cbn [negb]. rewrite orb_false_r.
  destruct (Interval_eqb (interval st) i) eqn:E; cbn [negb].
  - assert (Ei : interval st = i)
      by (destruct (interval st), i; cbn in E; congruence).
    subst i. exact Hold.
  - destruct i; try discriminate.
    repeat split; auto. apply sameValue_refl.
Qed.

Section Reachable.
Context `{Host}.

Lemma step_stateInvariant (st st' : State) (e : Event) :
  stateInvariant st -> step st e = Some st' -> stateInvariant st'.
Proof.
  intros [Ha Hs]. destruct e as [i|n response|n now fetch fuel|msg];
    cbn [step].
  - intros [= <-]. split; [exact Ha | now apply select_socket].
  - destruct (nth_error (inflight st) n) as [[captured|]|]; try discriminate.
    intros [= <-]. unfold onPreviousClose.
    assert (Hinv : stateInvariant (withoutTask n st)) by (split; assumption).
    destruct response as [rows|]; [|exact Hinv].
    destruct (toBoolean (selectPreviousClose captured rows)); [|exact Hinv].
    split; [exact Ha|].
    apply runEffects_socket; try reflexivity. exact Hs.
  - destruct (nth_error (inflight st) n) as [[|captured capturedClose]|];
      try discriminate.
    destruct (fetchHistoricalData captured capturedClose now fetch fuel)
      as [chart| |] eqn:E; try discriminate; intros [= <-].
    + split; [|exact Hs]. cbn [withChartData chartData].
      unfold fetchHistoricalData in E.
      destruct (snd (historicalRun captured now fetch fuel));
        try discriminate.
      injection E as <-. apply historicalChart_aligned.
    + split; assumption.
  - destruct (ws st) as [captured|] eqn:Ew; [|discriminate].
    intros [= <-]. split.
    + cbn [onmessage chartData]. now apply mergeUpdate_aligned.
    + unfold socketTracksState in *. cbn [onmessage ws interval previousClose].
      rewrite Ew in *. exact Hs.
Qed.

Lemma run_stateInvariant (es : list Event) (st : State) :
  run mount es = Some st -> stateInvariant st.
Proof.
  assert (G : forall es0 st0 st1,
             stateInvariant st0 -> run st0 es0 = Some st1 ->
             stateInvariant st1).
  { induction es0 as [|e es0 IH]; intros st0 st1 Hinv; cbn [run].
    - now intros [= <-].
    - destruct (step st0 e) as [st2|] eqn:E; [|discriminate].
      apply IH. eapply step_stateInvariant; eauto. }
  apply G. split; [split; [reflexivity | discriminate]|].
  cbn. repeat split; reflexivity.
Qed.

(** X11. In every state the component reaches, the chart has as many
    prices as labels, and its reference line, when there is one, has that
    length too. *)
Theorem reachable_chart_is_aligned (es : list Event) (st : State) :
  run mount es = Some st ->
  List.length (data (prices (chartData st)))
  = List.length (labels (chartData st))
  /\ (forall line,
        reference (chartData st) = Some line ->
        List.length (refData line) = List.length (labels (chartData st))).
Proof.
  intros Hrun. exact (proj1 (run_stateInvariant es st Hrun)).
Qed.

(** X12. In every state the component reaches, the socket is open exactly
    when Today is selected, and the previous close its handler works with
    is the previous close of the state. *)
Theorem reachable_socket_tracks_state (es : list Event) (st : State) :
  run mount es = Some st ->
  (ws st = None <-> interval st <> I1m)
  /\ (forall captured capturedClose,
        ws st = Some (captured, capturedClose) ->
        captured = I1m
        /\ sameValue capturedClose (previousClose st) = true).
Proof.
  intros Hrun.
  destruct (run_stateInvariant es st Hrun) as [_ Hs].
  unfold socketTracksState in Hs.
  destruct (ws st) as [[captured capturedClose]|].
  - destruct Hs as (H1 & H2 & H3). split.
    + split; [discriminate | congruence].
    + intros c0 cc [= <- <-]. auto.
  - split; [tauto | discriminate].
Qed.

End Reachable.

Lemma loadedState_reached :
  run (H := utcHost) mount
    [HistoricalSettles 1 now0 sampleServer 5; StreamMessage sampleMessage]
  = Some loadedState.
Proof. vm_compute. reflexivity. Qed.

Lemma reachable_chart_is_aligned_witness :
  List.length (data (prices (chartData loadedState)))
  = List.length (labels (chartData loadedState))
  /\ (forall line,
        reference (chartData loadedState) = Some line ->
        List.length (refData line)
        = List.length (labels (chartData loadedState))).
Proof.
  apply (reachable_chart_is_aligned (H := utcHost)
           [HistoricalSettles 1 now0 sampleServer 5;
            StreamMessage sampleMessage] loadedState).
  vm_compute. reflexivity.
Defined.

Lemma reachable_socket_tracks_state_witness :
  (ws loadedState = None <-> interval loadedState <> I1m)
  /\ (forall captured capturedClose,
        ws loadedState = Some (captured, capturedClose) ->
        captured = I1m
        /\ sameValue capturedClose (previousClose loadedState) = true).
Proof.
  apply (reachable_socket_tracks_state (H := utcHost)
           [HistoricalSettles 1 now0 sampleServer 5;
            StreamMessage sampleMessage] loadedState).
  vm_compute. reflexivity.
Defined.

(** ** Previous-close responses *)

Section PreviousCloseResponses.
Context `{Host}.

Lemma select_short_today (rows : list Kline) :
  (List.length rows < 2)%nat -> selectPreviousClose I1m rows = Null.
Proof.
  intros Hlen. cbn [selectPreviousClose]. unfold rowAt.
  replace (Z.of_nat (List.length rows) - 2 <? 0) with true
    by (symmetry; apply Z.ltb_lt; lia).
  reflexivity.
Qed.

Lemma select_no_rows (captured : Interval) :
  selectPreviousClose captured [] = Null.
Proof. destruct captured; reflexivity. Qed.

(** X13. A previous-close response that cannot be used (the request was
    refused, Today's answer has fewer than two rows, the answer has no
    rows, or the close selected is empty, zero or not a number) only ends
    the request: the previous close, the chart, the socket and the other
    requests in flight stay as they are. *)
Theorem unusable_previous_close_changes_nothing
    (st : State) (n : nat) (captured : Interval) (response : Response) :
  nth_error (inflight st) n = Some (PreviousCloseFetch captured) ->
  (response = None
   \/ (exists rows,
         response = Some rows /\ captured = I1m
         /\ (List.length rows < 2)%nat)
   \/ response = Some []
   \/ (exists rows,
         response = Some rows
         /\ toBoolean (selectPreviousClose captured rows) = false)) ->
  step st (PreviousCloseSettles n response) = Some (withoutTask n st)
  /\ previousClose (withoutTask n st) = previousClose st
  /\ chartData (withoutTask n st) = chartData st
  /\ ws (withoutTask n st) = ws st.
Proof.
  intros Htask Hcase.
  split; [|repeat split].
  cbn [step]. rewrite Htask. f_equal. unfold onPreviousClose.
  destruct Hcase as [->|[(rows & -> & -> & Hlen)|[->|(rows & -> & Hf)]]].
  - reflexivity.
  - now rewrite (select_short_today rows Hlen).
  - now rewrite select_no_rows.
  - now rewrite Hf.
Qed.

(** X14. A previous-close response whose selected close is truthy becomes
    the previous close, whatever interval it was asked for.  When it
    differs from the previous close of the state, a historical fetch is
    started with it for the selected interval and, if Today is selected,
    the socket is reopened with it; when it is the same value nothing is
    started.  The chart stays until that fetch completes. *)
Theorem new_previous_close_restarts_history
    (st : State) (n : nat) (captured : Interval) (rows : list Kline) :
  nth_error (inflight st) n = Some (PreviousCloseFetch captured) ->
  toBoolean (selectPreviousClose captured rows) = true ->
  exists st',
    step st (PreviousCloseSettles n (Some rows)) = Some st'
    /\ previousClose st' = selectPreviousClose captured rows
    /\ chartData st' = chartData st
    /\ interval st' = interval st
    /\ if sameValue (previousClose st) (selectPreviousClose captured rows)
       then inflight st' = removeNth n (inflight st) /\ ws st' = ws st
       else inflight st'
            = removeNth n (inflight st)
              ++ [HistoricalFetch (interval st)
                    (selectPreviousClose captured rows)]
            /\ ws st' = match interval st with
                        | I1m =>
                            Some (I1m, selectPreviousClose captured rows)
                        | _ => None
                        end.
Proof.
  intros Htask Htruthy. eexists. cbn [step]. rewrite Htask.
  split; [reflexivity|]. unfold onPreviousClose. rewrite Htruthy.
  unfold runEffects, withoutTask.
  cbn [interval previousClose chartData ws inflight].
  replace (Interval_eqb (interval st) (interval st)) with true
    by (symmetry; destruct (interval st); reflexivity).
  cbn [negb orb app].
  split; [reflexivity|]. split; [reflexivity|]. split; [reflexivity|].
  destruct (sameValue (previousClose st) (selectPreviousClose captured rows));
    cbn [negb app].
  - split; [now rewrite app_nil_r | reflexivity].
  - split; [reflexivity | destruct (interval st); reflexivity].
Qed.

End PreviousCloseResponses.

Lemma unusable_previous_close_changes_nothing_witness :
  step (H := utcHost) mount
    (PreviousCloseSettles 0
       (Some [ {| k0 := 1699920000000; k4 := "36950.10" |} ]))
  = Some (withoutTask 0 mount)
  /\ previousClose (withoutTask 0 mount) = previousClose mount
  /\ chartData (withoutTask 0 mount) = chartData mount
  /\ ws (withoutTask 0 mount) = ws mount.
Proof.
  apply (unusable_previous_close_changes_nothing (H := utcHost) mount 0 I1m).
  - reflexivity.
  - right. left. eexists. repeat split. cbn. lia.
Defined.

Lemma new_previous_close_restarts_history_witness :
  exists st',
    step (H := utcHost) mount (PreviousCloseSettles 0 (Some dailyRows))
    = Some st'
    /\ previousClose st' = Num (Fin (3560000 # 100))
    /\ inflight st'
       = [HistoricalFetch I1m Null;
          HistoricalFetch I1m (Num (Fin (3560000 # 100)))]
    /\ ws st' = Some (I1m, Num (Fin (3560000 # 100))).
Proof.
  destruct (new_previous_close_restarts_history (H := utcHost) mount 0 I1m
              dailyRows) as (st' & S1 & S2 & _ & _ & S5);
    [reflexivity | reflexivity |].
  exists st'. split; [exact S1|]. split; [exact S2|]. exact S5.
Defined.

(** ** Headline and line *)

Lemma gt_sameValue (a v w : value) :
  sameValue v w = true -> gt a v = gt a w.
Proof.
  destruct v as [| |[|x]], w as [| |[|y]]; cbn [sameValue];
    try discriminate; try reflexivity.
  intros E. apply Qeq_bool_iff in E.
  unfold gt. cbn [toNumber]. destruct (toNumber a) as [|z]; [reflexivity|].
  f_equal. apply eq_true_iff_eq. rewrite !Qle_bool_iff. now rewrite E.
Qed.

Lemma sameValue_null (v : value) : sameValue v Null = true -> v = Null.
Proof. destruct v as [| |[|x]]; cbn; congruence. Qed.

Lemma sameValue_notNull (v w : value) :
  sameValue v w = true -> notNull v = notNull w.
Proof.
  destruct v as [| |[|x]], w as [| |[|y]]; cbn; congruence.
Qed.

(** X15. After a stream update that finds its slot and carries a non-zero
    close, the headline and the line of the chart point the same way: both
    up, both down, or, with no previous close yet, both neutral. *)
Theorem headline_agrees_with_line `{Host} (es : list Event)
    (st st' : State) (msg : KlineMsg) :
  run mount es = Some st ->
  step st (StreamMessage msg) = Some st' ->
  In (timestampOf (t msg)) (labels (chartData st)) ->
  toBoolean (Num (parseFloat (c msg))) = true ->
  let headline := headlineColor (currentPrice st') (previousClose st') in
  let line := borderColor (prices (chartData st')) in
  (headline = HEADLINE_UP /\ line = Some GREEN)
  \/ (headline = HEADLINE_DOWN /\ line = Some RED)
  \/ (headline = HEADLINE_PLAIN /\ line = Some GRAY
      /\ previousClose st' = Null).
Proof.
  intros Hrun Hstep Hin Htruthy. cbv zeta.
  destruct (run_stateInvariant es st Hrun) as [_ Hs].
  pose proof (stored_previousClose_truthy es mount st mount_baselinesOk Hrun)
    as (Hpc & _ & _).
  cbn [step] in Hstep. unfold socketTracksState in Hs.
  destruct (ws st) as [[captured capturedClose]|]; [|discriminate].
  destruct Hs as (_ & _ & Hsame). injection Hstep as <-.
  cbn [onmessage currentPrice previousClose chartData fst snd].
  rewrite (mergeUpdate_matched _ _ _ _ _ Hin). cbn [prices borderColor].
  unfold headlineColor, liveBorderColor. rewrite Htruthy. cbn [andb].
  rewrite (gt_sameValue _ _ _ Hsame), (sameValue_notNull _ _ Hsame).
  destruct Hpc as [Hnull|Htr].
  - rewrite Hnull. cbn [toBoolean notNull]. right. right. auto.
  - rewrite Htr.
    assert (Hnn : notNull (previousClose st) = true)
      by (destruct (previousClose st); [reflexivity | discriminate | reflexivity]).
    rewrite Hnn.
    destruct (gt (Num (parseFloat (c msg))) (previousClose st)); auto.
Qed.

Lemma headline_agrees_with_line_witness :
  let headline :=
    headlineColor (currentPrice loadedState) (previousClose loadedState) in
  let line := borderColor (prices (chartData loadedState)) in
  (headline = HEADLINE_UP /\ line = Some GREEN)
  \/ (headline = HEADLINE_DOWN /\ line = Some RED)
  \/ (headline = HEADLINE_PLAIN /\ line = Some GRAY
      /\ previousClose loadedState = Null).
Proof.
  apply (headline_agrees_with_line (H := utcHost)
           [HistoricalSettles 1 now0 sampleServer 5]
           (withChartData
              (historicalChart (H := utcHost) I1m Null sampleCandles)
              (withoutTask 1 mount))
           loadedState sampleMessage).
  - vm_compute. reflexivity.
  - vm_compute. reflexivity.
  - cbn [withChartData chartData].
    rewrite (historicalChart_today_labels (H := utcHost)).
    destruct (in_dec string_dec (timestampOf (H := utcHost) (t sampleMessage))
                minuteGrid) as [Hin|Hno]; [exact Hin|].
    apply indexOf_absent in Hno. vm_compute in Hno. discriminate.
  - reflexivity.
Defined.

(** ** Axis ticks, reference line, tooltip *)

(** X16. On a chart of Today the tick callback gives a text to exactly six
    of the 1440 ticks, the full hours 00, 04, 08, 12, 16 and 20, which is
    within the tick limit of eight. *)
Theorem today_axis_shows_six_ticks `{Host} (previousClose : value)
    (candles : list Kline) :
  let chart := historicalChart I1m previousClose candles in
  filter Str.truthy (tickTexts I1m (labels chart))
  = ["00:00"; "04:00"; "08:00"; "12:00"; "16:00"; "20:00"]
  /\ List.length (tickTexts I1m (labels chart)) = 1440%nat
  /\ Z.of_nat (List.length (filter Str.truthy (tickTexts I1m (labels chart))))
     <= maxTicksLimit I1m.
Proof.
  cbv zeta. rewrite historicalChart_today_labels.
  vm_compute. repeat split; try reflexivity. discriminate.
Qed.

Lemma referenceLabel_is_close (interval : Interval) :
  Str.truthy (referenceLabel interval) = true
  /\ Str.includes (referenceLabel interval) "Close" = true.
Proof. destruct interval; split; reflexivity. Qed.

Lemma get_repeat_first (v : value) (n : nat) :
  (0 < n)%nat -> get (repeat v n) 0 = v.
Proof. destruct n; [lia | reflexivity]. Qed.

(** X17. In a chart whose reference line was built for [n] labels, as on
    both paths, the tooltip filter lets through the price dataset and only
    it, and the label plugin finds the reference line and draws at the
    previous close exactly when the previous close is present and the
    chart has labels. *)
Theorem reference_line_is_found_and_hidden (chart : ChartData)
    (interval : Interval) (previousClose : value) (n : nat) :
  reference chart = referenceLine interval previousClose n ->
  filter tooltipFilter (datasets chart) = [(None, data (prices chart))]
  /\ previousCloseLabelPrice chart
     = if notNull previousClose && (0 <? Z.of_nat n) then Some previousClose
       else None.
Proof.
  intros Href. unfold datasets, previousCloseLabelPrice, datasets.
  rewrite Href. unfold referenceLine.
  destruct (referenceLabel_is_close interval) as [Ht Hi].
  destruct (notNull previousClose); cbn [andb].
  - cbn [filter find tooltipFilter isCloseDataset fst snd refLabel refData].
    rewrite Ht, Hi. cbn [negb orb andb]. split; [reflexivity|].
    cbn [snd]. rewrite repeat_length.
    destruct (0 <? Z.of_nat n) eqn:E; [|reflexivity].
    apply Z.ltb_lt in E. rewrite get_repeat_first by lia. reflexivity.
  - cbn. split; reflexivity.
Qed.

Lemma reference_line_is_found_and_hidden_witness :
  let chart := chartData loadedState in
  filter tooltipFilter (datasets chart) = [(None, data (prices chart))]
  /\ previousCloseLabelPrice chart = None.
Proof.
  cbv zeta.
  apply (reference_line_is_found_and_hidden (chartData loadedState)
           I1m Null 1440).
  vm_compute. reflexivity.
Defined.

(** ** The ticker component *)

Lemma beforeFirst_prefix (sep : ascii) (s : string) :
  String.prefix (Str.beforeFirst sep s) s = true.
Proof.
  induction s as [|ch r IH]; [reflexivity|].
  cbn [Str.beforeFirst]. destruct (Ascii.eqb ch sep); [reflexivity|].
  cbn [String.prefix]. destruct (ascii_dec ch ch); [exact IH | congruence].
Qed.

Lemma beforeFirst_free (sep : ascii) (s : string) (i : nat) :
  String.get i (Str.beforeFirst sep s) <> Some sep.
Proof.
  revert i; induction s as [|ch r IH]; intros i; [destruct i; discriminate|].
  cbn [Str.beforeFirst]. destruct (Ascii.eqb ch sep) eqn:E.
  - destruct i; discriminate.
  - apply Ascii.eqb_neq in E. destruct i as [|i]; cbn [String.get].
    + congruence.
    + apply IH.
Qed.

(** X18. A ticker message with a non-empty stream name and a data object
    stores the price and the change under the part of the stream name
    before the first [@] (a key that holds no [@]) and leaves every other
    key as it was; a message that lacks either leaves the object as it is.
    For the subscribed stream the key is the one the state starts with. *)
Theorem ticker_update_replaces_one_entry (msg : Dashboard.Message)
    (prev : Dashboard.Prices) :
  (forall s d,
     Dashboard.stream msg = Some s -> s <> EmptyString ->
     Dashboard.payload msg = Some d ->
     let key := Str.beforeFirst "@"%char s in
     Dashboard.onmessage msg prev key
     = Some {| Dashboard.price := Some (Dashboard.tickerC d);
               Dashboard.change := Some (Dashboard.tickerP d) |}
     /\ (forall k, k <> key -> Dashboard.onmessage msg prev k = prev k)
     /\ String.prefix key s = true
     /\ (forall i, String.get i key <> Some "@"%char))
  /\ (Dashboard.stream msg = None \/ Dashboard.stream msg = Some EmptyString
      \/ Dashboard.payload msg = None ->
      Dashboard.onmessage msg prev = prev)
  /\ Str.beforeFirst "@"%char "btcusdt@ticker" = "btcusdt".
Proof.
  split; [|split; [|reflexivity]].
  - intros s d Hs Hne Hd. cbv zeta. unfold Dashboard.onmessage.
    rewrite Hs, Hd.
    assert (Ht : Str.truthy s = true)
      by (unfold Str.truthy; apply negb_true_iff, String.eqb_neq; exact Hne).
    rewrite Ht. unfold Dashboard.assign.
    split; [now rewrite String.eqb_refl|]. split; [|split].
    + intros k Hk. apply String.eqb_neq in Hk. now rewrite Hk.
    + apply beforeFirst_prefix.
    + apply beforeFirst_free.
  - unfold Dashboard.onmessage.
    intros [Hs|[Hs|Hd]].
    + now rewrite Hs.
    + rewrite Hs. destruct (Dashboard.payload msg); reflexivity.
    + rewrite Hd. destruct (Dashboard.stream msg); reflexivity.
Qed.

Lemma ticker_update_replaces_one_entry_witness :
  let msg :=
    {| Dashboard.stream := Some "btcusdt@ticker";
       Dashboard.payload :=
         Some {| Dashboard.tickerC := "36952.00";
                 Dashboard.tickerP := "1.25" |} |} in
  Dashboard.onmessage msg Dashboard.initialPrices "btcusdt"
  = Some {| Dashboard.price := Some "36952.00";
            Dashboard.change := Some "1.25" |}
  /\ (forall k, k <> "btcusdt" ->
        Dashboard.onmessage msg Dashboard.initialPrices k
        = Dashboard.initialPrices k).
Proof.
  cbv zeta.
  destruct (ticker_update_replaces_one_entry
              {| Dashboard.stream := Some "btcusdt@ticker";
                 Dashboard.payload :=
                   Some {| Dashboard.tickerC := "36952.00";
                           Dashboard.tickerP := "1.25" |} |}
              Dashboard.initialPrices) as (T & _).
  destruct (T "btcusdt@ticker"
              {| Dashboard.tickerC := "36952.00";
                 Dashboard.tickerP := "1.25" |})
    as (T1 & T2 & _); try reflexivity; [discriminate|].
  split; [exact T1 | exact T2].
Defined.

(** ** Time windows *)

Lemma ceil_spec (ms a : Z) :
  0 < ms -> (- ((- a) / ms) - 1) * ms < a <= - ((- a) / ms) * ms.
Proof.
  intros Hms.
  pose proof (Z.mul_div_le (- a) ms Hms).
  pose proof (Z.mul_succ_div_gt (- a) ms Hms).
  set (q := (- a) / ms) in *. lia.
Qed.

Lemma floor_spec (ms b : Z) :
  0 < ms -> b / ms * ms <= b < (b / ms + 1) * ms.
Proof.
  intros Hms.
  pose proof (Z.mul_div_le b ms Hms).
  pose proof (Z.mul_succ_div_gt b ms Hms).
  set (q := b / ms) in *. lia.
Qed.

(** A window between one and 999 bucket lengths long is fetched from the
    exchange with one request. *)
Lemma one_page_fetch (ms : Z) (quote : Z -> string) (cfg : TimeConfig)
    (extra : nat) :
  0 < ms -> intervalMs cfg = ms ->
  ms <= endTime cfg - startTime cfg <= 999 * ms ->
  let first := - ((- startTime cfg) / ms) in
  let rows := Z.to_nat (endTime cfg / ms - first + 1) in
  (endTime cfg - startTime cfg) / ms <= Z.of_nat rows
    <= (endTime cfg - startTime cfg) / ms + 1
  /\ fetchBatches (exchange ms quote) cfg (S extra) [] (startTime cfg)
     = ([batchRequest cfg (startTime cfg)],
        Done (buckets ms quote first rows)).
Proof.
  intros Hms Hcfg Hspan. cbv zeta.
  pose proof (ceil_spec ms (startTime cfg) Hms) as Hk.
  pose proof (floor_spec ms (endTime cfg) Hms) as Hl.
  pose proof (floor_spec ms (endTime cfg - startTime cfg) Hms) as Hq.
  set (k := - ((- startTime cfg) / ms)) in *.
  set (l := endTime cfg / ms) in *.
  set (w := (endTime cfg - startTime cfg) / ms) in *.
  assert (Hkl : k <= l) by nia.
  assert (Hlk : l <= k + 999) by nia.
  assert (Hw1 : l - k <= w) by nia.
  assert (Hw2 : w <= l - k + 1) by nia.
  split; [lia|].
  assert (Hpage : exchange ms quote (batchRequest cfg (startTime cfg))
                  = Some (buckets ms quote k (Z.to_nat (l - k + 1)))).
  { apply exchange_page; [exact Hms | exact Hcfg | exact Hk | lia | |].
    - rewrite Z2Nat.id by lia. rewrite Z.min_r by lia.
      replace (k + (l - k + 1) - 1) with l by lia. lia.
    - right. rewrite Z2Nat.id by lia. rewrite Z.min_r by lia.
      replace (k + (l - k + 1)) with (l + 1) by lia. lia. }
  destruct (Z.to_nat (l - k + 1)) as [|n'] eqn:En; [lia|].
  assert (Hlt : startTime cfg < endTime cfg) by lia.
  rewrite (fetchBatches_page _ _ _ _ _ _ Hlt Hpage)
    by (intros E; apply (f_equal (@List.length Kline)) in E;
        rewrite buckets_length in E; discriminate).
  rewrite buckets_last, Hcfg.
  rewrite fetchBatches_done by lia.
  reflexivity.
Qed.

Section Windows.
Context `{Host}.

(** X19. For one week, one month, three months and one year the window
    ends at [now] and is exactly 168, 180, 90 and 365 bucket lengths long.
    Against an exchange that returns every bucket the historical fetch
    then issues exactly one request and collects every bucket that opens
    in the window: as many rows as bucket lengths, or one more. *)
Theorem rolling_windows_fit_one_page (interval : Interval) (now : Z)
    (quote : Z -> string) (extra : nat) :
  In interval [I1w; I1M; I3M; I1Y] ->
  let cfg := getTimeConfig interval now in
  let spans :=
    match interval with
    | I1w => 168 | I1M => 180 | I3M => 90 | _ => 365
    end in
  let first := - ((- startTime cfg) / intervalMs cfg) in
  let rows := Z.to_nat (now / intervalMs cfg - first + 1) in
  endTime cfg = now
  /\ endTime cfg - startTime cfg = spans * intervalMs cfg
  /\ spans <= Z.of_nat rows <= spans + 1
  /\ fetchBatches (exchange (intervalMs cfg) quote) cfg (S extra) []
       (startTime cfg)
     = ([batchRequest cfg (startTime cfg)],
        Done (buckets (intervalMs cfg) quote first rows)).
Proof.
  intros Hi. cbv zeta.
  assert (G : forall cfg spans,
             0 < intervalMs cfg -> 1 <= spans <= 999 ->
             endTime cfg = now ->
             endTime cfg - startTime cfg = spans * intervalMs cfg ->
             endTime cfg = now
             /\ endTime cfg - startTime cfg = spans * intervalMs cfg
             /\ spans
                <= Z.of_nat
                     (Z.to_nat (now / intervalMs cfg
                                - - ((- startTime cfg) / intervalMs cfg) + 1))
                <= spans + 1
             /\ fetchBatches (exchange (intervalMs cfg) quote) cfg (S extra)
                  [] (startTime cfg)
                = ([batchRequest cfg (startTime cfg)],
                   Done (buckets (intervalMs cfg) quote
                           (- ((- startTime cfg) / intervalMs cfg))
                           (Z.to_nat
                              (now / intervalMs cfg
                               - - ((- startTime cfg) / intervalMs cfg)
                               + 1))))).
  { intros cfg spans Hms Hs He Hw.
    destruct (one_page_fetch (intervalMs cfg) quote cfg extra Hms eq_refl)
      as [Hrows Hrun]; [nia|].
    subst now. rewrite Hw, Z.div_mul in Hrows by lia.
    split; [reflexivity|]. split; [exact Hw|].
    split; [exact Hrows | exact Hrun]. }
  destruct Hi as [<-|[<-|[<-|[<-|[]]]]].
  - apply (G (getTimeConfig I1w now) 168); cbn; lia.
  - apply (G (getTimeConfig I1M now) 180); cbn; lia.
  - apply (G (getTimeConfig I3M now) 90); cbn; lia.
  - apply (G (getTimeConfig I1Y now) 365); cbn; lia.
Qed.

(** X24. On a day without a change of the local offset the window of Today
    is the local day of [now]: it starts at 00:00:00.000 and ends at
    23:59:59.999 local time of that day, 86399999 ms later, and contains
    [now]. *)
Theorem today_window_is_local_day (now : Z) :
  steadyDay now ->
  validTime (now - msPerDay) -> validTime (now + msPerDay) ->
  let cfg := getTimeConfig I1m now in
  validTime (startTime cfg) /\ validTime (endTime cfg)
  /\ startTime cfg <= now <= endTime cfg
  /\ endTime cfg - startTime cfg = 86399999
  /\ localTime (startTime cfg) = localTime now / msPerDay * msPerDay
  /\ getHours (startTime cfg) = 0 /\ getMinutes (startTime cfg) = 0
  /\ getHours (endTime cfg) = 23 /\ getMinutes (endTime cfg) = 59
  /\ intervalMs cfg = 60000.
Proof.
  intros (S1 & S2 & S3 & S4) Hv1 Hv2. cbv zeta.
  cbv [getTimeConfig startTime endTime intervalMs].
  set (o := LocalTZA now true) in *.
  set (first := localTime now / msPerDay * msPerDay) in *.
  assert (Hstart : setHours now 0 0 0 0 = first - o).
  { unfold setHours, utcOf. fold first.
    replace (first + 0 * msPerHour + 0 * msPerMinute + 0 * 1000 + 0)
      with first by lia.
    now rewrite S1. }
  assert (Hlocal : localTime (first - o) = first)
    by (unfold localTime; rewrite S2; lia).
  assert (Hend : setHours (first - o) 23 59 59 999 = first + 86399999 - o).
  { unfold setHours, utcOf. rewrite Hlocal.
    replace (first / msPerDay * msPerDay) with first
      by (unfold first; rewrite Z.div_mul by (unfold msPerDay; lia);
          reflexivity).
    replace (first + 23 * msPerHour + 59 * msPerMinute + 59 * 1000 + 999)
      with (first + 86399999) by (unfold msPerHour, msPerMinute; lia).
    now rewrite S3. }
  rewrite Hstart, Hend.
  unfold getHours, getMinutes. rewrite Hlocal.
  assert (Hlocal2 : localTime (first + 86399999 - o) = first + 86399999)
    by (unfold localTime; rewrite S4; lia).
  rewrite Hlocal2.
  assert (HL : localTime now = now + o) by reflexivity.
  unfold validTime, first, msPerDay, msPerHour, msPerMinute in *.
  set (L := localTime now) in *. clearbody L o.
  repeat split; try (Z.div_mod_to_equations; lia).
Qed.

End Windows.

Lemma rolling_windows_fit_one_page_witness :
  let cfg := getTimeConfig (H := utcHost) I1w now0 in
  startTime cfg = 1699395330000
  /\ fetchBatches (exchange 3600000 (fun _ => "100.00")) cfg 1 []
       (startTime cfg)
     = ([batchRequest cfg (startTime cfg)],
        Done (buckets 3600000 (fun _ => "100.00") 472055 168)).
Proof.
  cbv zeta.
  destruct (rolling_windows_fit_one_page (H := utcHost) I1w now0
              (fun _ => "100.00") 0) as (_ & _ & _ & T).
  - left. reflexivity.
  - split; [reflexivity | exact T].
Defined.

Example week_on_the_hour_has_one_more_row :
  snd (fetchBatches (exchange 3600000 (fun _ => "100.00"))
         (getTimeConfig (H := utcHost) I1w 1700002800000) 1 []
         (startTime (getTimeConfig (H := utcHost) I1w 1700002800000)))
  = Done (buckets 3600000 (fun _ => "100.00") 472055 169).
Proof. vm_compute. reflexivity. Qed.

Lemma today_window_is_local_day_witness :
  let cfg := getTimeConfig (H := utcHost) I1m now0 in
  startTime cfg = 1699920000000 /\ endTime cfg = 1700006399999
  /\ startTime cfg <= now0 <= endTime cfg
  /\ getHours (H := utcHost) (endTime cfg) = 23.
Proof.
  cbv zeta.
  destruct (today_window_is_local_day (H := utcHost) now0)
    as (_ & _ & T1 & _ & _ & _ & _ & T2 & _).
  - repeat split; reflexivity.
  - unfold validTime, now0, msPerDay. lia.
  - unfold validTime, now0, msPerDay. lia.
  - split; [reflexivity|]. split; [reflexivity|].
    split; [exact T1 | exact T2].
Defined.

(** In New York the day on which daylight saving ends is 25 hours long. *)
Example new_york_long_day :
  endTime (getTimeConfig (H := newYorkHost) I1m 1699160400000)
  - startTime (getTimeConfig (H := newYorkHost) I1m 1699160400000)
  = 89999999.
Proof. vm_compute. reflexivity. Qed.

(** ** The year-to-date window *)

Lemma allFrom_spec (check : Z -> bool) (n : nat) :
  forall z, allFrom check n z = true ->
  forall k, z <= k < z + Z.of_nat n -> check k = true.
Proof.
  induction n as [|n IH]; intros z Hall k Hk; [lia|].
  cbn [allFrom] in Hall. destruct (check z) eqn:Hz; [|discriminate].
  destruct (Z.eq_dec k z) as [->|Hne]; [exact Hz|].
  apply (IH (z + 1) Hall). lia.
Qed.

Lemma every_day_in_its_year :
  allFrom dayInItsYear (Z.to_nat 146097) 0 = true.
Proof. vm_compute. reflexivity. Qed.

Lemma every_year_starts_in_january :
  allFrom yearStartIsJanuaryFirst (Z.to_nat 400) 0 = true.
Proof. vm_compute. reflexivity. Qed.

Section Calendar.
Context `{Host}.

Lemma civil_in_era (days : Z) :
  let z := days + 719468 in
  let era := z / 146097 in
  civil days
  = let '(Y, m, d) := civilInEra (z - era * 146097) in (Y + era * 400, m, d).
Proof.
  cbv zeta. unfold civil, civilInEra. cbv zeta.
  f_equal. f_equal. lia.
Qed.

Lemma daysFromCivil_january (Y era : Z) :
  daysFromCivil (Y + era * 400) 1 1
  = era * 146097 + yearStartInEra Y - 719468.
Proof.
  unfold daysFromCivil, yearStartInEra.
  change (1 <=? 2) with true. change (2 <? 1) with false. cbv iota zeta.
  change ((153 * (1 + 9) + 2) / 5 + 1 - 1) with 306.
  replace (Y + era * 400 - 1) with (Y - 1 + era * 400) by lia.
  rewrite Z.div_add by lia.
  set (e := (Y - 1) / 400).
  replace (Y - 1 + era * 400 - (e + era) * 400) with (Y - 1 - e * 400) by lia.
  lia.
Qed.

Lemma era_bounds (days : Z) :
  let z := days + 719468 in
  0 <= z - z / 146097 * 146097 < 0 + Z.of_nat (Z.to_nat 146097).
Proof.
  cbv zeta. rewrite Z2Nat.id by lia.
  pose proof (Z.mod_pos_bound (days + 719468) 146097 ltac:(lia)) as Hb.
  rewrite Z.mod_eq in Hb by lia. lia.
Qed.

(** The first day of the year a day is dated in is at most 365 days before
    that day. *)
Lemma year_start_before_day (days : Z) :
  let '(y, _, _) := civil days in
  daysFromCivil y 1 1 <= days < daysFromCivil y 1 1 + 366.
Proof.
  pose proof (civil_in_era days) as Hc. cbv zeta in Hc. rewrite Hc.
  pose proof (allFrom_spec _ _ _ every_day_in_its_year _ (era_bounds days))
    as Hin.
  unfold dayInItsYear in Hin.
  set (era := (days + 719468) / 146097) in *.
  destruct (civilInEra (days + 719468 - era * 146097)) as [[Y m] d].
  rewrite daysFromCivil_january.
  apply andb_true_iff in Hin. destruct Hin as [Hin _].
  apply andb_true_iff in Hin. destruct Hin as [H1 H2].
  apply Z.leb_le in H1. apply Z.ltb_lt in H2. lia.
Qed.

(** Months run from 1 to 12 and days from 1 to 31. *)
Lemma civil_month_day_range (days : Z) :
  let '(_, m, d) := civil days in 1 <= m <= 12 /\ 1 <= d <= 31.
Proof.
  pose proof (civil_in_era days) as Hc. cbv zeta in Hc. rewrite Hc.
  pose proof (allFrom_spec _ _ _ every_day_in_its_year _ (era_bounds days))
    as Hin.
  unfold dayInItsYear in Hin.
  destruct (civilInEra (days + 719468 - (days + 719468) / 146097 * 146097))
    as [[Y m] d].
  apply andb_true_iff in Hin. destruct Hin as [_ Hin].
  rewrite !andb_true_iff, !Z.leb_le in Hin. lia.
Qed.

(** The first day of a year is dated 1 January of that year. *)
Lemma civil_of_year_start (y : Z) :
  civil (daysFromCivil y 1 1) = (y, 1, 1).
Proof.
  set (era := y / 400). set (Y := y - era * 400).
  assert (HY : 0 <= Y < 0 + Z.of_nat (Z.to_nat 400)).
  { rewrite Z2Nat.id by lia. unfold Y, era.
    pose proof (Z.mod_pos_bound y 400 ltac:(lia)) as Hb.
    rewrite Z.mod_eq in Hb by lia. lia. }
  replace y with (Y + era * 400) by (unfold Y; lia).
  rewrite daysFromCivil_january.
  pose proof (civil_in_era (era * 146097 + yearStartInEra Y - 719468)) as Hc.
  cbv zeta in Hc. rewrite Hc. clear Hc.
  replace (era * 146097 + yearStartInEra Y - 719468 + 719468)
    with (yearStartInEra Y + era * 146097) by lia.
  rewrite Z.div_add by lia.
  pose proof (allFrom_spec _ _ _ every_year_starts_in_january Y HY) as Hj.
  unfold yearStartIsJanuaryFirst in Hj.
  set (s := yearStartInEra Y) in *. set (e := s / 146097) in *.
  replace (s + era * 146097 - (e + era) * 146097) with (s - e * 146097)
    by lia.
  destruct (civilInEra (s - e * 146097)) as [[Y' m] d].
  apply andb_true_iff in Hj. destruct Hj as [Hj Hd].
  apply andb_true_iff in Hj. destruct Hj as [Hy Hm].
  apply Z.eqb_eq in Hy, Hm, Hd. subst m d. f_equal. f_equal. lia.
Qed.

(** X20. With [now] a time value of a year after 99, and the local
    offset of [now] also in force at midnight of 1 January of that year,
    the year-to-date window starts at that midnight (00:00 local time on
    1 January of the local year of [now]), which is not after [now] and
    less than 366 days before it; it ends at [now] and is fewer than 366
    bucket lengths long. *)
Theorem year_to_date_window (now : Z) :
  let cfg := getTimeConfig IYTD now in
  let january := daysFromCivil (getFullYear now) 1 1 * msPerDay in
  validTime (now - 366 * msPerDay) -> validTime now ->
  99 < getFullYear now ->
  LocalTZA january false = LocalTZA now true ->
  LocalTZA (january - LocalTZA now true) true = LocalTZA now true ->
  endTime cfg = now
  /\ startTime cfg = january - LocalTZA now true
  /\ validTime (startTime cfg)
  /\ startTime cfg <= now < startTime cfg + 366 * msPerDay
  /\ getFullYear (startTime cfg) = getFullYear now
  /\ getMonth (startTime cfg) = 0
  /\ getDate (startTime cfg) = 1
  /\ getHours (startTime cfg) = 0
  /\ getMinutes (startTime cfg) = 0
  /\ 0 <= (endTime cfg - startTime cfg) / intervalMs cfg < 366.
Proof.
  cbv zeta. intros Hv1 Hv2 Hy Ho1 Ho2.
  cbv [getTimeConfig startTime endTime intervalMs].
  set (Y := getFullYear now) in *.
  set (o := LocalTZA now true) in *.
  assert (Hstart : yearStartOf Y = daysFromCivil Y 1 1 * msPerDay - o).
  { unfold yearStartOf, utcOf.
    replace (Y <=? 99) with false by (symmetry; apply Z.leb_gt; lia).
    rewrite andb_false_r. cbv zeta. now rewrite Ho1. }
  rewrite Hstart.
  assert (Hlocal : localTime (daysFromCivil Y 1 1 * msPerDay - o)
                   = daysFromCivil Y 1 1 * msPerDay)
    by (unfold localTime; rewrite Ho2; lia).
  assert (Hcivil : civil (localTime (daysFromCivil Y 1 1 * msPerDay - o)
                          / msPerDay) = (Y, 1, 1)).
  { rewrite Hlocal, Z.div_mul by (unfold msPerDay; lia).
    apply civil_of_year_start. }
  assert (Hbounds : daysFromCivil Y 1 1 <= localTime now / msPerDay
                    < daysFromCivil Y 1 1 + 366).
  { pose proof (year_start_before_day (localTime now / msPerDay)) as Hyear.
    unfold Y, getFullYear.
    now destruct (civil (localTime now / msPerDay)) as [[y m] d]. }
  unfold getFullYear, getMonth, getDate, getHours, getMinutes.
  rewrite Hcivil, Hlocal.
  assert (HL : localTime now = now + o) by reflexivity.
  set (ys := daysFromCivil Y 1 1) in *.
  set (L := localTime now) in *.
  clearbody L o ys Y.
  unfold validTime, msPerDay, msPerHour, msPerMinute in *.
  repeat split; try (Z.div_mod_to_equations; lia).
Qed.

End Calendar.

Lemma year_to_date_window_witness :
  let cfg := getTimeConfig (H := utcHost) IYTD now0 in
  startTime cfg = 1672531200000
  /\ startTime cfg <= now0 < startTime cfg + 366 * msPerDay
  /\ getMonth (H := utcHost) (startTime cfg) = 0
  /\ getDate (H := utcHost) (startTime cfg) = 1.
Proof.
  cbv zeta.
  destruct (year_to_date_window (H := utcHost) now0)
    as (_ & T1 & _ & T2 & _ & T3 & T4 & _).
  - unfold validTime, now0, msPerDay. lia.
  - unfold validTime, now0. lia.
  - vm_compute. reflexivity.
  - reflexivity.
  - reflexivity.
  - split; [exact T1|]. split; [exact T2|]. split; [exact T3 | exact T4].
Defined.

Example year_to_date_example :
  startTime (getTimeConfig (H := utcHost) IYTD now0) = 1672531200000
  /\ (endTime (getTimeConfig (H := utcHost) IYTD now0)
      - startTime (getTimeConfig (H := utcHost) IYTD now0))
     / intervalMs (getTimeConfig (H := utcHost) IYTD now0) = 317.
Proof. vm_compute. split; reflexivity. Qed.

(** In New York the year starts at 05:00 UTC, also when [now] lies in the
    summer. *)
Example new_york_year_start :
  startTime (getTimeConfig (H := newYorkHost) IYTD 1690000000000)
  = 1672549200000.
Proof. vm_compute. reflexivity. Qed.

(** ** Labels and the minutes they stand for *)

Section Labels.
Context `{Host}.

Lemma hours_minutes_range (t : Z) :
  0 <= getHours t < 24 /\ 0 <= getMinutes t < 60.
Proof.
  unfold getHours, getMinutes. split; apply Z.mod_pos_bound; lia.
Qed.

(** X21. Two valid bucket open times get the same HH:MM label exactly when
    they open in the same hour and minute of the local day; a time a whole
    number of days later has the same label when the local offset is the
    same at both instants.  This is all a stream update is matched by. *)
Theorem labels_identify_minute_of_day (t1 t2 days : Z) :
  validTime t1 -> validTime t2 ->
  (timestampOf t1 = timestampOf t2
   <-> getHours t1 = getHours t2 /\ getMinutes t1 = getMinutes t2)
  /\ (validTime (t1 + days * msPerDay) ->
      LocalTZA (t1 + days * msPerDay) true = LocalTZA t1 true ->
      timestampOf (t1 + days * msPerDay) = timestampOf t1).
Proof.
  intros _ _.
  destruct (hours_minutes_range t1) as [Hh1 Hm1].
  destruct (hours_minutes_range t2) as [Hh2 Hm2].
  split.
  - split.
    + intros E. unfold timestampOf in E.
      pose proof (grid_slot _ _ Hh1 Hm1) as S1.
      pose proof (grid_slot _ _ Hh2 Hm2) as S2.
      rewrite E in S1. lia.
    + intros [E1 E2]. unfold timestampOf. now rewrite E1, E2.
  - intros _ Ho.
    unfold timestampOf, getHours, getMinutes, localTime. rewrite Ho.
    unfold msPerDay, msPerHour, msPerMinute.
    set (o := LocalTZA t1 true). clearbody o.
    replace (t1 + days * 86400000 + o) with (t1 + o + days * 86400000) by lia.
    f_equal; [|f_equal]; f_equal; Z.div_mod_to_equations; lia.
Qed.

Lemma find_pointwise {A} (p q : A -> bool) (l : list A) :
  (forall x, p x = q x) -> find p l = find q l.
Proof.
  intros Hpq. induction l as [|x l IH]; [reflexivity|].
  cbn [find]. now rewrite Hpq, IH.
Qed.

Lemma find_unique {A} (slot : A -> Z) (target : Z) (l : list A) (x : A) :
  NoDup (map slot l) -> In x l -> slot x = target ->
  find (fun y => slot y =? target) l = Some x.
Proof.
  induction l as [|y l IH]; intros Hnd Hin Hx; [destruct Hin|].
  cbn [map] in Hnd. inversion Hnd as [|? ? Hnotin Hnd']; subst.
  cbn [find]. destruct (slot y =? slot x) eqn:E.
  - apply Z.eqb_eq in E. destruct Hin as [->|Hin]; [reflexivity|].
    exfalso. apply Hnotin. rewrite E. now apply in_map.
  - destruct Hin as [->|Hin]; [rewrite Z.eqb_refl in E; discriminate|].
    now apply IH.
Qed.

(** X22. When the candles open at valid time values and no two of them in
    the same minute of the local day, every candle shows in the series of
    Today: the slot of its minute holds its close. *)
Theorem every_candle_shows_in_its_slot (candles : list Kline)
    (kline : Kline) :
  Forall (fun k => validTime (k0 k)) candles ->
  NoDup (map minuteOfDay candles) ->
  In kline candles ->
  get (snd (buildSeries I1m candles)) (minuteOfDay kline)
  = Num (parseFloat (k4 kline)).
Proof.
  intros _ Hnd Hin. cbn [buildSeries].
  rewrite (f_equal snd (todaySeries_maps candles)). cbn [snd].
  destruct (hours_minutes_range (k0 kline)) as [Hh Hm].
  unfold get, minuteOfDay in *.
  set (h := getHours (k0 kline)) in *. set (m := getMinutes (k0 kline)) in *.
  replace (60 * h + m <? 0) with false by (symmetry; apply Z.ltb_ge; lia).
  set (i := Z.to_nat (60 * h + m)).
  assert (Hi : (i < 1440)%nat) by (unfold i; lia).
  rewrite (nth_indep _ Undefined (slotOf candles (0 / 60) (0 mod 60)))
    by (rewrite length_map, length_seq; exact Hi).
  rewrite (map_nth (fun j => slotOf candles (j / 60) (j mod 60))).
  rewrite seq_nth by exact Hi. cbn [Nat.add].
  assert (E1 : Z.of_nat (i / 60) = h).
  { unfold i. rewrite Nat2Z.inj_div, Z2Nat.id by lia.
    change (Z.of_nat 60) with 60. symmetry.
    apply (Z.div_unique (60 * h + m) 60 h m); lia. }
  assert (E2 : Z.of_nat (i mod 60) = m).
  { unfold i. rewrite Nat2Z.inj_mod, Z2Nat.id by lia.
    change (Z.of_nat 60) with 60. symmetry.
    apply (Z.mod_unique (60 * h + m) 60 h m); lia. }
  unfold slotOf.
  assert (Hfind : find (matchesSlot (i / 60) (i mod 60)) candles = Some kline).
  { rewrite <- (find_unique (fun k => 60 * getHours (k0 k) + getMinutes (k0 k))
                  (60 * h + m) candles kline Hnd Hin eq_refl).
    apply find_pointwise. intros k. unfold matchesSlot. rewrite E1, E2.
    destruct (hours_minutes_range (k0 k)) as [Hkh Hkm].
    apply eq_true_iff_eq.
    rewrite andb_true_iff, !Z.eqb_eq. fold h m. lia. }
  now rewrite Hfind.
Qed.

(** X23. On the week chart the tick callback gives a text exactly to the
    candles that open in hour zero of a local day. *)
Theorem week_axis_ticks_at_midnight (klineTime index : Z) :
  tickCallback I1w (klineLabel I1w klineTime) index
  = if getHours klineTime =? 0 then klineLabel I1w klineTime
    else EmptyString.
Proof.
  assert (Hcheck : weekTickCheck = true) by (vm_compute; reflexivity).
  unfold weekTickCheck in Hcheck. rewrite forallb_forall in Hcheck.
  pose proof (civil_month_day_range (localTime klineTime / msPerDay)) as Hr.
  destruct (hours_minutes_range klineTime) as [Hh _].
  cbn [tickCallback klineLabel]. unfold getMonth, getDate.
  destruct (civil (localTime klineTime / msPerDay)) as [[y mo] d].
  destruct Hr as [Hmo Hd].
  specialize (Hcheck (Z.to_nat mo) ltac:(apply in_seq; lia)).
  rewrite forallb_forall in Hcheck.
  specialize (Hcheck (Z.to_nat d) ltac:(apply in_seq; lia)).
  rewrite forallb_forall in Hcheck.
  specialize (Hcheck (Z.to_nat (getHours klineTime)) ltac:(apply in_seq; lia)).
  rewrite !Z2Nat.id in Hcheck by lia.
  apply Bool.eqb_prop in Hcheck. unfold weekLabel in Hcheck.
  replace (mo - 1 + 1) with mo by lia.
  rewrite Hcheck. reflexivity.
Qed.

End Labels.

Lemma labels_identify_minute_of_day_witness :
  timestampOf (H := utcHost) (1700000100000 + 1 * msPerDay)
  = timestampOf (H := utcHost) 1700000100000.
Proof.
  destruct (labels_identify_minute_of_day (H := utcHost)
              1700000100000 1700000100000 1) as (_ & T).
  - unfold validTime. lia.
  - unfold validTime. lia.
  - apply T; [unfold validTime, msPerDay; lia | reflexivity].
Defined.

(** In New York, 24 hours after the midnight that starts the day on which
    daylight saving ends, the label is 23:00 of the same day. *)
Example new_york_label_after_a_day :
  timestampOf (H := newYorkHost) 1699156800000 = "00:00"
  /\ timestampOf (H := newYorkHost) (1699156800000 + 1 * msPerDay) = "23:00".
Proof. vm_compute. split; reflexivity. Qed.

Lemma every_candle_shows_in_its_slot_witness :
  get (snd (buildSeries (H := utcHost) I1m
              [ {| k0 := 1700000040000; k4 := "36950.10" |};
                {| k0 := 1700000100000; k4 := "36951.25" |} ]))
    1335
  = Num (Fin (3695125 # 100)).
Proof.
  apply (every_candle_shows_in_its_slot (H := utcHost)
           [ {| k0 := 1700000040000; k4 := "36950.10" |};
             {| k0 := 1700000100000; k4 := "36951.25" |} ]
           {| k0 := 1700000100000; k4 := "36951.25" |}).
  - repeat constructor; cbn [k0]; lia.
  - vm_compute. constructor; [|constructor; [|constructor]].
    + intros [E|[]]. discriminate.
    + intros [].
  - right. left. reflexivity.
Defined.
